(** * pySigma-backend-athena: the table-name pipeline and the predicate core

    A shallow embedding of [sigma/pipelines/athena/athena.py] and of the
    condition-to-predicate translator exercised by
    [tests/test_backend_athena_mixed_modifiers.py].

    Python [str] values are Rocq [string]s; a character is a code point
    below 256.  A Python [dict] is an association list in insertion order,
    because [list(values.keys())] is printed in the error message. *)

From Stdlib Require Import String Ascii List Bool Arith Lia.
Import ListNotations.
Local Open Scope string_scope.

(** ** Python strings *)

Definition dquote : ascii := ascii_of_nat 34.

Fixpoint str_mem (c : ascii) (s : string) : bool :=
  match s with
  | EmptyString => false
  | String a s' => Ascii.eqb a c || str_mem c s'
  end.

(** [s.replace(old, new)] for one-character [old] and [new]. *)
Fixpoint replace (old new : ascii) (s : string) : string :=
  match s with
  | EmptyString => EmptyString
  | String a s' => String (if Ascii.eqb a old then new else a) (replace old new s')
  end.

Definition hex_digit (n : nat) : ascii :=
  match n with
  | 0 => "0" | 1 => "1" | 2 => "2" | 3 => "3" | 4 => "4" | 5 => "5"
  | 6 => "6" | 7 => "7" | 8 => "8" | 9 => "9" | 10 => "a" | 11 => "b"
  | 12 => "c" | 13 => "d" | 14 => "e" | _ => "f"
  end%char.

(** One character of [repr(s)], for the quote character chosen by [repr]. *)
Definition repr_char (quote c : ascii) : string :=
  let n := nat_of_ascii c in
  if Ascii.eqb c quote || Ascii.eqb c "\"%char then String "\" (String c "")
  else if (n =? 9)%nat then "\t"
  else if (n =? 10)%nat then "\n"
  else if (n =? 13)%nat then "\r"
  else if ((n <? 32) || (n =? 127) || ((128 <=? n) && (n <=? 160)) || (n =? 173))%nat
       then String "\" (String "x" (String (hex_digit (n / 16)) (String (hex_digit (n mod 16)) "")))
  else String c "".

Fixpoint repr_body (quote : ascii) (s : string) : string :=
  match s with
  | EmptyString => EmptyString
  | String c s' => repr_char quote c ++ repr_body quote s'
  end.

(** [repr(s)]: single quotes, unless [s] has a single quote and no double one. *)
Definition repr (s : string) : string :=
  let quote := if str_mem "'" s && negb (str_mem dquote s) then dquote else "'"%char in
  String quote (repr_body quote s ++ String quote "").

(** [repr] of a list of strings, as [f"{list(d.keys())}"] prints it. *)
Definition repr_list (l : list string) : string :=
  "[" ++ String.concat ", " (map repr l) ++ "]".

(** ** Python dicts *)

Definition dict := list (string * string).

Fixpoint dict_get (d : dict) (k : string) : option string :=
  match d with
  | [] => None
  | (k', v) :: d' => if String.eqb k' k then Some v else dict_get d' k
  end.

(** [d[k] = v]: an existing key keeps its position, a new one goes last. *)
Fixpoint dict_set (d : dict) (k v : string) : dict :=
  match d with
  | [] => [(k, v)]
  | (k', v') :: d' =>
      if String.eqb k' k then (k', v) :: d' else (k', v') :: dict_set d' k v
  end.

Definition dict_update (d items : dict) : dict :=
  fold_left (fun acc kv => dict_set acc (fst kv) (snd kv)) items d.

(** [{**a, **b}]: a new dict filled from [a], then from [b]. *)
Definition dict_merge (a b : dict) : dict := dict_update (dict_update [] a) b.

Definition dict_keys (d : dict) : list string := map fst d.

(** ** Exceptions and results *)

(** The [ValueError]s of the format-string scanner. *)
Inductive format_error :=
| SingleCloseBrace      (* Single '}' encountered in format string *)
| SingleOpenBrace       (* Single '{' encountered in format string *)
| ExpectedCloseBrace    (* expected '}' before end of string *)
| UnexpectedOpenBrace   (* unexpected '{' in field name *)
| PositionalField.      (* an empty or numeric field name under format_map *)

Inductive exn :=
| KeyError (arg : string)
| ValueError (e : format_error).

(** [Unmodelled]: the replacement field uses an attribute or index accessor,
    a conversion or a format spec, which this embedding does not describe. *)
Inductive result (A : Type) :=
| Ok (a : A)
| Raise (e : exn)
| Unmodelled.
Arguments Ok {A} a.
Arguments Raise {A} e.
Arguments Unmodelled {A}.

Definition prepend (s : string) (r : result string) : result string :=
  match r with
  | Ok t => Ok (s ++ t)
  | Raise e => Raise e
  | Unmodelled => Unmodelled
  end.

(** ** [str.format_map] *)

Definition is_digit (c : ascii) : bool :=
  let n := nat_of_ascii c in ((48 <=? n) && (n <=? 57))%nat.

Fixpoint all_digits (s : string) : bool :=
  match s with
  | EmptyString => true
  | String c s' => is_digit c && all_digits s'
  end.

(** Characters that start an accessor, a conversion or a format spec. *)
Definition field_special (c : ascii) : bool :=
  Ascii.eqb c "." || Ascii.eqb c "[" || Ascii.eqb c "!" || Ascii.eqb c ":".

(** The object a replacement field named [name] stands for. *)
Definition get_field_object (values : dict) (name : string) : result string :=
  if all_digits name then Raise (ValueError PositionalField)
  else match dict_get values name with
       | Some v => Ok v
       | None => Raise (KeyError name)
       end.

Inductive scan_mode :=
| Text
| Field (name : string).

(** The scanner reads the template left to right; literal text is copied,
    a doubled brace is one brace, and a field is looked up as soon as its
    closing brace is read, so the first failure in reading order wins. *)
Fixpoint do_markup (values : dict) (m : scan_mode) (s : string) : result string :=
  match m, s with
  | Text, EmptyString => Ok EmptyString
  | Text, String c rest =>
      if Ascii.eqb c "}" then
        match rest with
        | String c' rest' =>
            if Ascii.eqb c' "}" then prepend "}" (do_markup values Text rest')
            else Raise (ValueError SingleCloseBrace)
        | EmptyString => Raise (ValueError SingleCloseBrace)
        end
      else if Ascii.eqb c "{" then
        match rest with
        | String c' rest' =>
            if Ascii.eqb c' "{" then prepend "{" (do_markup values Text rest')
            else do_markup values (Field EmptyString) rest
        | EmptyString => Raise (ValueError SingleOpenBrace)
        end
      else prepend (String c EmptyString) (do_markup values Text rest)
  | Field name, EmptyString => Raise (ValueError ExpectedCloseBrace)
  | Field name, String c rest =>
      if Ascii.eqb c "}" then
        match get_field_object values name with
        | Ok v => prepend v (do_markup values Text rest)
        | Raise e => Raise e
        | Unmodelled => Unmodelled
        end
      else if Ascii.eqb c "{" then Raise (ValueError UnexpectedOpenBrace)
      else if field_special c then Unmodelled
      else do_markup values (Field (name ++ String c EmptyString)) rest
  end.

Definition format_map (template : string) (values : dict) : result string :=
  do_markup values Text template.

(** ** The pipeline objects of pySigma that the transformations touch *)

Record LogsourceCondition := {
  product : string;
  service : string
}.

(** The dataclass fields shared by both transformation classes. *)
Record Transformation := {
  key : string;
  template : string;
  default_values : dict
}.

Record ProcessingItem := {
  identifier : string;
  transformation : Transformation;
  rule_conditions : list LogsourceCondition
}.

(** [vars] holds the backend options; [state] is the run-scoped state,
    a dict of its own (pySigma copies [vars] into it when a run starts). *)
Record ProcessingPipeline := {
  name : string;
  allowed_backends : list string;
  priority : nat;
  items : list ProcessingItem;
  vars : dict;
  state : dict
}.

Definition with_state (pipeline : ProcessingPipeline) (st : dict) : ProcessingPipeline :=
  {| name := name pipeline;
     allowed_backends := allowed_backends pipeline;
     priority := priority pipeline;
     items := items pipeline;
     vars := vars pipeline;
     state := st |}.

(** What a call of [apply] does: it returns, leaving a pipeline, or it
    raises, leaving the pipeline as it was when the exception left. *)
Inductive outcome :=
| Returns (pipeline : ProcessingPipeline)
| Raises (e : exn) (pipeline : ProcessingPipeline)
| Outside.

(** The text of the [KeyError] that [apply] raises in place of the one
    from [format_map]. *)
Definition missing_key_message (missing_key self_key : string) (values : dict) : string :=
  "Missing key '" ++ missing_key ++ "' in template substitution for '" ++ self_key ++ "'. "
  ++ "Available keys: " ++ repr_list (dict_keys values) ++ ". "
  ++ "You likely need to set the key '" ++ missing_key ++ "' via 'backend options'.".

Module SetStateFromBackendOptionsTransformation.

(** [super().apply(rule)] only records on the rule that the item was
    applied; the pipeline is not touched by it.  The assignment to
    [pipeline.state[self.key]] happens after [format_map] has returned. *)
Definition apply (self : Transformation) (pipeline : ProcessingPipeline) : outcome :=
  let values := dict_merge (default_values self) (vars pipeline) in
  match format_map (template self) values with
  | Ok s => Returns (with_state pipeline (dict_set (state pipeline) (key self) s))
  | Raise (KeyError missing_key) =>
      Raises (KeyError (missing_key_message missing_key (key self) values)) pipeline
  | Raise e => Raises e pipeline
  | Unmodelled => Outside
  end.

End SetStateFromBackendOptionsTransformation.

Module SetStateFromBackendOptionsTransformationDashToUnderscore.

Definition apply (self : Transformation) (pipeline : ProcessingPipeline) : outcome :=
  match SetStateFromBackendOptionsTransformation.apply self pipeline with
  | Returns pipeline' =>
      match dict_get (state pipeline') (key self) with
      | Some v =>
          Returns (with_state pipeline'
                     (dict_set (state pipeline') (key self) (replace "-" "_" v)))
      | None => Raises (KeyError (key self)) pipeline'
      end
  | other => other
  end.

End SetStateFromBackendOptionsTransformationDashToUnderscore.

Definition sources : list (LogsourceCondition * string) :=
  [ ({| product := "aws"; service := "cloudtrail" |},
     "amazon_security_lake_table_{backend_aws_table_region}_cloud_trail_mgmt_{backend_aws_table_version}");
    ({| product := "aws"; service := "cloudtrail_s3" |},
     "amazon_security_lake_table_{backend_aws_table_region}_s3_data_{backend_aws_table_version}");
    ({| product := "aws"; service := "cloudtrail_lambda" |},
     "amazon_security_lake_table_{backend_aws_table_region}_lambda_execution_{backend_aws_table_version}");
    ({| product := "aws"; service := "route53" |},
     "amazon_security_lake_table_{backend_aws_table_region}_route53_{backend_aws_table_version}");
    ({| product := "aws"; service := "security_hub" |},
     "amazon_security_lake_table_{backend_aws_table_region}_sh_findings_{backend_aws_table_version}");
    ({| product := "aws"; service := "vpc_flow_logs" |},
     "amazon_security_lake_table_{backend_aws_table_region}_vpc_flow_{backend_aws_table_version}");
    ({| product := "aws"; service := "waf" |},
     "amazon_security_lake_table_{backend_aws_table_region}_waf_{backend_aws_table_version}");
    ({| product := "aws"; service := "eks_audit" |},
     "amazon_security_lake_table_{backend_aws_table_region}_eks_audit_{backend_aws_table_version}") ].

(** Every item carries the dash-to-underscore transformation. *)
Definition athena_pipeline_security_lake_table_name : ProcessingPipeline :=
  {| name := "athena map source to table name pipeline";
     allowed_backends := ["athena"];
     priority := 20;
     items :=
       map (fun cn : LogsourceCondition * string =>
              let (condition, name) := cn in
              {| identifier := "table_" ++ name;
                 transformation :=
                   {| key := "table_name";
                      template := name;
                      default_values := [("backend_aws_table_version", "2_0")] |};
                 rule_conditions := [condition] |})
           sources;
     vars := [];
     state := [] |}.

(** ** The predicate core behind [athenaBackend.convert]

    The backend module is not among the sources; its tests are.  Each
    part below follows the specification and is checked against the
    expected strings of the tests. *)

Module athenaBackend.

Inductive Modifier := contains | startswith | endswith | cased | fieldref | re.

Inductive ComparisonShape :=
| EQUALITY | CONTAINS | STARTSWITH | ENDSWITH | FIELD_EQUALITY | REGEX.

(** The errors the tests observe: pySigma's [SigmaValueError] and
    [SigmaTypeError], raised while the rule is read, and the
    [NotImplementedError] of the backend, raised while it converts. *)
Inductive error :=
| SigmaValueError (msg : string)
| SigmaTypeError (refused : Modifier)
| NotImplementedError (msg : string).

(** [Delegated]: the regular expression shape, left to the dialect.
    [NotDescribed]: a combination of modifiers that neither the
    specification nor the tests settle. *)
Inductive compiled (A : Type) :=
| Sql (a : A)
| Error (e : error)
| Delegated
| NotDescribed.
Arguments Sql {A} a.
Arguments Error {A} e.
Arguments Delegated {A}.
Arguments NotDescribed {A}.

Definition bind {A B : Type} (c : compiled A) (f : A -> compiled B) : compiled B :=
  match c with
  | Sql a => f a
  | Error e => Error e
  | Delegated => Delegated
  | NotDescribed => NotDescribed
  end.

Definition Modifier_eqb (a b : Modifier) : bool :=
  match a, b with
  | contains, contains | startswith, startswith | endswith, endswith
  | cased, cased | fieldref, fieldref | re, re => true
  | _, _ => false
  end.

Definition has (m : Modifier) (stack : list Modifier) : bool :=
  existsb (Modifier_eqb m) stack.

Definition shape_of (m : Modifier) : ComparisonShape :=
  match m with
  | contains => CONTAINS
  | startswith => STARTSWITH
  | endswith => ENDSWITH
  | fieldref => FIELD_EQUALITY
  | re => REGEX
  | cased => EQUALITY
  end.

Definition is_pattern (shape : ComparisonShape) : bool :=
  match shape with
  | CONTAINS | STARTSWITH | ENDSWITH => true
  | _ => false
  end.

(** A value of a rule has a wildcard when a [*] or a [?] stands in it
    without a backslash in front; a backslash escapes [*], [?] and itself. *)
Fixpoint contains_special (s : string) : bool :=
  match s with
  | EmptyString => false
  | String c rest =>
      if Ascii.eqb c "\" then
        match rest with
        | String c' rest' =>
            if Ascii.eqb c' "*" || Ascii.eqb c' "?" || Ascii.eqb c' "\"
            then contains_special rest'
            else contains_special rest
        | EmptyString => false
        end
      else Ascii.eqb c "*" || Ascii.eqb c "?" || contains_special rest
  end.

(** What a value is after some of its modifiers: a string, with or without
    wildcards, a reference to a field, or a regular expression. *)
Inductive value_kind :=
| string_value (wildcards : bool)
| field_reference
| regular_expression.

Record modified := {
  kind : value_kind;
  pattern : option ComparisonShape;
  is_cased : bool;
  applied_modifiers : nat
}.

Definition unmodified (value : string) : modified :=
  {| kind := string_value (contains_special value);
     pattern := None;
     is_cased := false;
     applied_modifiers := 0 |}.

(** Modelled from the spec: one modifier of the stack of section 3, applied
    to a value the way the rule reader applies it before the absent
    backend sees the value: [cased] and [fieldref] take a string,
    [fieldref] refuses a string with wildcards, [re] takes a string that no
    modifier has touched (section 4.2, rule 1), and a pattern modifier puts
    its wildcards around a string.  A modifier applied to a value of
    another kind is a type error. *)
Definition apply_modifier (m : Modifier) (v : modified) : compiled modified :=
  let next := S (applied_modifiers v) in
  match m, kind v with
  | cased, string_value w =>
      Sql {| kind := string_value w; pattern := pattern v;
             is_cased := true; applied_modifiers := next |}
  | fieldref, string_value w =>
      if w then Error (SigmaValueError "Field references must not contain wildcards")
      else Sql {| kind := field_reference; pattern := pattern v;
                  is_cased := is_cased v; applied_modifiers := next |}
  | re, string_value w =>
      match applied_modifiers v with
      | 0 => Sql {| kind := regular_expression; pattern := pattern v;
                    is_cased := is_cased v; applied_modifiers := next |}
      | S _ => Error (SigmaValueError
                        "Regular expression modifier only applicable to unmodified values")
      end
  | (contains | startswith | endswith), string_value w =>
      match pattern v with
      | None => Sql {| kind := string_value true; pattern := Some (shape_of m);
                       is_cased := is_cased v; applied_modifiers := next |}
      | Some _ => NotDescribed
      end
  | (cased | fieldref | re), _ => Error (SigmaTypeError m)
  | (contains | startswith | endswith), _ => NotDescribed
  end.

(** The modifiers are applied in the order of the stack; the first one
    that fails decides. *)
Fixpoint apply_modifiers (stack : list Modifier) (v : modified) : compiled modified :=
  match stack with
  | [] => Sql v
  | m :: stack' => bind (apply_modifier m v) (apply_modifiers stack')
  end.

(** Modelled from the spec: the shape the absent backend gives a value that
    came through its modifiers (section 4.2, rules 2 to 4): a field
    reference is a field equality, refused when [cased] is among the
    modifiers; a regular expression is the regular expression shape; a
    string has the shape of its pattern modifier, or plain equality. *)
Definition backend_shape (stack : list Modifier) (v : modified)
  : compiled (ComparisonShape * bool) :=
  match kind v with
  | field_reference =>
      if has cased stack
      then Error (NotImplementedError
                    "cased is not support with fieldref for this backend at present")
      else Sql (FIELD_EQUALITY, false)
  | regular_expression => Sql (REGEX, false)
  | string_value _ =>
      Sql (match pattern v with Some shape => shape | None => EQUALITY end, is_cased v)
  end.


(** *** Identifier Resolver *)

Definition push (c : ascii) (segments : list string) : list string :=
  match segments with
  | [] => [String c EmptyString]
  | seg :: segments' => String c seg :: segments'
  end.

(** Modelled from the spec: the path split of the absent Identifier
    Resolver (sections 3 and 4.1): an unescaped dot separates segments,
    a backslash before a dot makes the dot part of the segment. *)
Fixpoint split_path (s : string) : list string :=
  match s with
  | EmptyString => [EmptyString]
  | String c rest =>
      if Ascii.eqb c "\" then
        match rest with
        | String c' rest' =>
            if Ascii.eqb c' "." then push "." (split_path rest')
            else push "\" (split_path rest)
        | EmptyString => push "\" (split_path rest)
        end
      else if Ascii.eqb c "." then EmptyString :: split_path rest
      else push c (split_path rest)
  end.

Definition is_word_char (c : ascii) : bool :=
  let n := nat_of_ascii c in
  (((48 <=? n) && (n <=? 57)) || ((65 <=? n) && (n <=? 90))
   || ((97 <=? n) && (n <=? 122)) || (n =? 95))%nat.

Fixpoint all_word_chars (s : string) : bool :=
  match s with
  | EmptyString => true
  | String c s' => is_word_char c && all_word_chars s'
  end.

Definition bare_identifier (seg : string) : bool :=
  match seg with
  | EmptyString => false
  | _ => all_word_chars seg
  end.

(** Modelled from the spec: the quoting rule of the absent Identifier
    Resolver (section 4.1): a segment that is not a bare identifier is
    wrapped in double quotes. *)
Definition quote_if_needed (seg : string) : string :=
  if bare_identifier seg then seg
  else String dquote (seg ++ String dquote EmptyString).

(** Modelled from the spec: the absent Identifier Resolver (section 4.1).
    A name whose first segment is one of the configured [element_at_fields]
    is read from that container with the rest of the path joined by dots;
    any other name is its segments, each quoted when it is not a bare
    identifier, joined by dots. *)
Definition escape_and_quote_field (element_at_fields : list string) (field_name : string)
  : string :=
  match split_path field_name with
  | container :: path =>
      if existsb (String.eqb container) element_at_fields
      then "element_at(" ++ container ++ ", '" ++ String.concat "." path ++ "')"
      else String.concat "." (map quote_if_needed (container :: path))
  | [] => EmptyString
  end.

(** *** Wildcard/Literal Escaper *)

Definition is_like_meta (c : ascii) : bool :=
  Ascii.eqb c "%" || Ascii.eqb c "_" || Ascii.eqb c "\".

(** Modelled from the spec: the first step of the absent escaper (section
    4.3): each [%], [_] and [\] gets a backslash in front. *)
Fixpoint escape_like (s : string) : string :=
  match s with
  | EmptyString => EmptyString
  | String c s' =>
      if is_like_meta c then String "\" (String c (escape_like s'))
      else String c (escape_like s')
  end.

(** Modelled from the spec: the second step of the absent escaper (section
    4.3), after the metacharacters are escaped: [?] becomes [_] and [*]
    becomes [%]. *)
Definition translate_wildcards (s : string) : string :=
  replace "*" "%" (replace "?" "_" s).

Definition lower_char (c : ascii) : ascii :=
  let n := nat_of_ascii c in
  if ((65 <=? n) && (n <=? 90))%nat then ascii_of_nat (n + 32) else c.

Fixpoint lower (s : string) : string :=
  match s with
  | EmptyString => EmptyString
  | String c s' => String (lower_char c) (lower s')
  end.

(** Modelled from the spec: the absent Wildcard/Literal Escaper (section
    4.3), in its three steps: escape the LIKE metacharacters, translate
    the generic wildcards for the pattern shapes, lower-case unless the
    comparison is case sensitive.  For [*] under [contains] the prose of
    section 4.3 and the end-to-end example 2 of section 8 disagree; the
    model follows the example, which is the string the repository's test
    [test_athena_contains_list_with_literal_star_and_question] expects. *)
Definition like_body (shape : ComparisonShape) (case_sensitive : bool) (literal : string)
  : string :=
  let escaped := escape_like literal in
  let translated := if is_pattern shape then translate_wildcards escaped else escaped in
  if case_sensitive then translated else lower translated.

(** Modelled from the spec: the final bracketing by shape of the absent
    escaper (section 4.3). *)
Definition bracket (shape : ComparisonShape) (body : string) : string :=
  match shape with
  | CONTAINS => "%" ++ body ++ "%"
  | STARTSWITH => body ++ "%"
  | ENDSWITH => "%" ++ body
  | _ => body
  end.

Definition like_pattern (shape : ComparisonShape) (case_sensitive : bool) (literal : string)
  : string :=
  bracket shape (like_body shape case_sensitive literal).

(** *** Predicate Assembler *)

Record comparison := {
  lhs : string;
  operator : string;
  rhs : string
}.

Definition render (c : comparison) : string :=
  lhs c ++ " " ++ operator c ++ " " ++ rhs c.

Definition LOWER (e : string) : string := "LOWER(" ++ e ++ ")".

Definition str_quote (s : string) : string := "'" ++ s ++ "'".

(** Modelled from the spec: one sub-predicate of the absent Predicate
    Assembler (section 4.4); [None] for the delegated [REGEX] shape. *)
Definition sub_predicate (element_at_fields : list string) (shape : ComparisonShape)
           (case_sensitive : bool) (id value : string) : option comparison :=
  match shape with
  | EQUALITY =>
      let literal := str_quote (like_pattern EQUALITY case_sensitive value) in
      Some (if case_sensitive
            then {| lhs := id; operator := "="; rhs := literal |}
            else {| lhs := LOWER id; operator := "="; rhs := LOWER literal |})
  | CONTAINS | STARTSWITH | ENDSWITH =>
      let pattern := str_quote (like_pattern shape case_sensitive value) ++ " ESCAPE '\'" in
      Some {| lhs := if case_sensitive then id else LOWER id;
              operator := "LIKE";
              rhs := pattern |}
  | FIELD_EQUALITY =>
      Some {| lhs := LOWER id;
              operator := "=";
              rhs := LOWER (escape_and_quote_field element_at_fields value) |}
  | REGEX => None
  end.

Record LeafCondition := {
  field : string;
  modifier_stack : list Modifier;
  values : list string;
  negated : bool
}.

Fixpoint all_sql {A : Type} (l : list (compiled A)) : compiled (list A) :=
  match l with
  | [] => Sql []
  | c :: l' => bind c (fun a => bind (all_sql l') (fun r => Sql (a :: r)))
  end.

(** Modelled from the spec: the negation of the absent assembler (section
    4.4): one NOT in front, with parentheses around an OR-joined group. *)
Definition negate (count : nat) (expr : string) : string :=
  if (1 <? count)%nat then "NOT (" ++ expr ++ ")" else "NOT " ++ expr.

(** Modelled from the spec: the sub-predicate the absent backend makes of
    one value that came through its modifiers. *)
Definition convert_value (element_at_fields : list string) (stack : list Modifier)
           (id : string) (vm : string * modified) : compiled comparison :=
  bind (backend_shape stack (snd vm))
       (fun sc =>
          match sub_predicate element_at_fields (fst sc) (snd sc) id (fst vm) with
          | Some cmp => Sql cmp
          | None => Delegated
          end).

(** Modelled from the spec: the absent translator of one leaf condition
    (sections 2 and 4.4).  The values go through the modifiers while the
    rule is read, all of them before the backend converts any; then the
    identifier is resolved once, each value gives one sub-predicate, the
    sub-predicates are joined with OR and one NOT is put in front when the
    condition is negated. *)
Definition convert_condition (element_at_fields : list string) (cond : LeafCondition)
  : compiled string :=
  let stack := modifier_stack cond in
  bind (all_sql (map (fun value => apply_modifiers stack (unmodified value)) (values cond)))
       (fun read =>
          let id := escape_and_quote_field element_at_fields (field cond) in
          bind (all_sql (map (convert_value element_at_fields stack id)
                             (combine (values cond) read)))
               (fun subs =>
                  let joined := String.concat " OR " (map render subs) in
                  Sql (if negated cond then negate (length subs) joined else joined))).

(** Modelled from the spec: the absent [athenaBackend.convert], as the
    tests observe it for a rule of one leaf condition: one query, over the
    table placeholder of section 6. *)
Definition convert (element_at_fields : list string) (cond : LeafCondition)
  : compiled (list string) :=
  bind (convert_condition element_at_fields cond)
       (fun expr => Sql ["SELECT * FROM <TABLE> WHERE " ++ expr]).

End athenaBackend.

(** ** Vocabulary of the statements *)

(** A dict has no repeated key. *)
Definition wf_dict (d : dict) : Prop := NoDup (dict_keys d).

Fixpoint name_chars (k : string) : bool :=
  match k with
  | EmptyString => true
  | String c k' =>
      negb (Ascii.eqb c "{") && negb (Ascii.eqb c "}") && negb (field_special c)
      && name_chars k'
  end.

(** [k] can stand between braces as a named placeholder: it is not empty,
    not a number, and has no brace, accessor, conversion or format spec. *)
Definition placeholder_name (k : string) : bool :=
  negb (all_digits k) && name_chars k.

Fixpoint brace_free (s : string) : bool :=
  match s with
  | EmptyString => true
  | String c s' => negb (Ascii.eqb c "{") && negb (Ascii.eqb c "}") && brace_free s'
  end.

Definition region_key : string := "backend_aws_table_region".
Definition version_key : string := "backend_aws_table_version".

(** Reading a LIKE pattern back, with the backslash as ESCAPE character:
    a backslash makes the [%], [_] or [\] after it a literal character. *)
Inductive like_token :=
| LitChar (c : ascii)
| AnyString
| AnyChar
| BadEscape.

Fixpoint like_tokens (pattern : string) : list like_token :=
  match pattern with
  | EmptyString => []
  | String c rest =>
      if Ascii.eqb c "\" then
        match rest with
        | String c' rest' =>
            if athenaBackend.is_like_meta c' then LitChar c' :: like_tokens rest'
            else [BadEscape]
        | EmptyString => [BadEscape]
        end
      else if Ascii.eqb c "%" then AnyString :: like_tokens rest
      else if Ascii.eqb c "_" then AnyChar :: like_tokens rest
      else LitChar c :: like_tokens rest
  end.

(** The token a character of the source literal stands for in a pattern. *)
Definition source_token (case_sensitive : bool) (c : ascii) : like_token :=
  if Ascii.eqb c "*" then AnyString
  else if Ascii.eqb c "?" then AnyChar
  else LitChar (if case_sensitive then c else athenaBackend.lower_char c).

Fixpoint source_tokens (case_sensitive : bool) (literal : string) : list like_token :=
  match literal with
  | EmptyString => []
  | String c s' => source_token case_sensitive c :: source_tokens case_sensitive s'
  end.


(** A field name written from its segments: dots inside a segment are
    escaped, segments are separated by dots. *)
Fixpoint escape_dots (seg : string) : string :=
  match seg with
  | EmptyString => EmptyString
  | String c s' =>
      if Ascii.eqb c "." then String "\" (String "." (escape_dots s'))
      else String c (escape_dots s')
  end.

Definition field_name_of (segments : list string) : string :=
  String.concat "." (map escape_dots segments).


(** The configuration of the test fixture: [athenaBackend(element_at_fields=["unmapped"])]. *)
Definition athena_backend : list string := ["unmapped"].

(** A template as its author writes it: literal text, in which a brace
    is written twice, and named placeholders between braces. *)
Inductive piece :=
| Literal (text : string)
| Placeholder (k : string).

Fixpoint double_braces (s : string) : string :=
  match s with
  | EmptyString => EmptyString
  | String c s' =>
      if Ascii.eqb c "{" || Ascii.eqb c "}"
      then String c (String c (double_braces s'))
      else String c (double_braces s')
  end.

Fixpoint write_template (pieces : list piece) : string :=
  match pieces with
  | [] => EmptyString
  | Literal text :: pieces' => double_braces text ++ write_template pieces'
  | Placeholder k :: pieces' => "{" ++ k ++ "}" ++ write_template pieces'
  end.

Fixpoint placeholders (pieces : list piece) : list string :=
  match pieces with
  | [] => []
  | Literal _ :: pieces' => placeholders pieces'
  | Placeholder k :: pieces' => k :: placeholders pieces'
  end.

(** Substitution piece by piece: the text of a literal, the entry of a
    placeholder; the first placeholder without an entry is a [KeyError]. *)
Fixpoint substitute (values : dict) (pieces : list piece) : result string :=
  match pieces with
  | [] => Ok EmptyString
  | Literal text :: pieces' => prepend text (substitute values pieces')
  | Placeholder k :: pieces' =>
      match dict_get values k with
      | Some v => prepend v (substitute values pieces')
      | None => Raise (KeyError k)
      end
  end.

(** A key of printable ASCII characters without a single quote or a
    backslash. *)
Definition ordinary_char (c : ascii) : bool :=
  let n := nat_of_ascii c in
  ((32 <=? n) && (n <=? 126))%nat && negb (Ascii.eqb c "'") && negb (Ascii.eqb c "\").

Fixpoint ordinary_key (k : string) : bool :=
  match k with
  | EmptyString => true
  | String c k' => ordinary_char c && ordinary_key k'
  end.

Definition key_in (keys : list string) (k : string) : bool :=
  existsb (String.eqb k) keys.

(** * Properties *)

(** ** Strings *)

Lemma append_empty_r (s : string) : s ++ "" = s.
Proof. induction s as [|c s IH]; simpl; [reflexivity | now rewrite IH]. Qed.

Lemma append_assoc (a b c : string) : (a ++ b) ++ c = a ++ b ++ c.
Proof. induction a as [|x a IH]; simpl; [reflexivity | now rewrite IH]. Qed.

Lemma replace_length old new s : String.length (replace old new s) = String.length s.
Proof. induction s as [|c s IH]; simpl; [reflexivity | now rewrite IH]. Qed.

Lemma replace_get old new s (i : nat) :
  String.get i (replace old new s)
  = option_map (fun c => if Ascii.eqb c old then new else c) (String.get i s).
Proof.
  revert i; induction s as [|c s IH]; intros i; simpl; [reflexivity|].
  destruct i; simpl; [reflexivity | apply IH].
Qed.

Lemma replace_app old new a b :
  replace old new (a ++ b) = replace old new a ++ replace old new b.
Proof. induction a as [|c a IH]; simpl; [reflexivity | now rewrite IH]. Qed.

(** ** Dicts *)

Lemma dict_get_set_same d k v : dict_get (dict_set d k v) k = Some v.
Proof.
  induction d as [|[k' v'] d IH]; simpl.
  - now rewrite String.eqb_refl.
  - destruct (String.eqb k' k) eqn:E; simpl; rewrite E; [reflexivity | exact IH].
Qed.

Lemma dict_get_set_other d k v k' :
  k <> k' -> dict_get (dict_set d k v) k' = dict_get d k'.
Proof.
  intros Hne; induction d as [|[k0 v0] d IH]; simpl.
  - destruct (String.eqb k k') eqn:E; [apply String.eqb_eq in E; contradiction | reflexivity].
  - destruct (String.eqb k0 k) eqn:E; simpl.
    + apply String.eqb_eq in E; subst k0.
      destruct (String.eqb k k') eqn:E'; [apply String.eqb_eq in E'; contradiction | reflexivity].
    + destruct (String.eqb k0 k'); [reflexivity | exact IH].
Qed.

Lemma dict_set_set d k v v' : dict_set (dict_set d k v) k v' = dict_set d k v'.
Proof.
  induction d as [|[k0 v0] d IH]; simpl.
  - now rewrite String.eqb_refl.
  - destruct (String.eqb k0 k) eqn:E; simpl; rewrite E; [reflexivity | now rewrite IH].
Qed.

Lemma dict_get_absent d k : ~ In k (dict_keys d) -> dict_get d k = None.
Proof.
  induction d as [|[k0 v0] d IH]; simpl; intros H; [reflexivity|].
  destruct (String.eqb k0 k) eqn:E.
  - apply String.eqb_eq in E; subst; exfalso; apply H; now left.
  - apply IH; intros Hin; apply H; now right.
Qed.

Lemma dict_get_update d items k :
  wf_dict items ->
  dict_get (dict_update d items) k
  = match dict_get items k with Some v => Some v | None => dict_get d k end.
Proof.
  unfold wf_dict, dict_update; revert d.
  induction items as [|[k0 v0] items IH]; intros d Hwf; simpl; [reflexivity|].
  inversion Hwf as [|? ? Hnotin Hwf']; subst.
  rewrite (IH _ Hwf').
  destruct (String.eqb k0 k) eqn:E.
  - apply String.eqb_eq in E; subst k0.
    rewrite (dict_get_absent _ _ Hnotin). apply dict_get_set_same.
  - destruct (dict_get items k); [reflexivity|].
    apply dict_get_set_other. intros ->. now rewrite String.eqb_refl in E.
Qed.

Lemma dict_get_update_none d items k :
  dict_get d k = None -> dict_get items k = None ->
  dict_get (dict_update d items) k = None.
Proof.
  unfold dict_update; revert d.
  induction items as [|[k0 v0] items IH]; intros d Hd Hi; simpl in *; [exact Hd|].
  destruct (String.eqb k0 k) eqn:E; [discriminate|].
  apply IH; [|exact Hi].
  rewrite dict_get_set_other; [exact Hd|].
  intros ->. now rewrite String.eqb_refl in E.
Qed.

Lemma dict_merge_get defaults options k :
  wf_dict defaults -> wf_dict options ->
  dict_get (dict_merge defaults options) k
  = match dict_get options k with Some v => Some v | None => dict_get defaults k end.
Proof.
  intros Hd Ho. unfold dict_merge.
  rewrite (dict_get_update _ _ _ Ho), (dict_get_update _ _ _ Hd).
  simpl. now destruct (dict_get defaults k).
Qed.

Lemma dict_merge_get_none defaults options k :
  dict_get defaults k = None -> dict_get options k = None ->
  dict_get (dict_merge defaults options) k = None.
Proof.
  intros Hd Ho. unfold dict_merge.
  apply dict_get_update_none; [|exact Ho].
  now apply dict_get_update_none.
Qed.

(** ** The format-string scanner *)

Lemma prepend_empty r : prepend "" r = r.
Proof. now destruct r. Qed.

Lemma prepend_prepend a b r : prepend a (prepend b r) = prepend (a ++ b) r.
Proof. destruct r; simpl; [now rewrite append_assoc | reflexivity | reflexivity]. Qed.

Lemma prepend_ok s r t : prepend s r = Ok t -> exists u, r = Ok u /\ t = s ++ u.
Proof. destruct r; simpl; intros H; inversion H; eauto. Qed.

Ltac prepend_inv H :=
  let u := fresh "u" in
  let Hu := fresh "Hu" in
  let Ht := fresh "Ht" in
  apply prepend_ok in H; destruct H as [u [Hu Ht]]; subst.

Lemma do_markup_text values c rest :
  do_markup values Text (String c rest)
  = if Ascii.eqb c "}" then
      match rest with
      | String c' rest' =>
          if Ascii.eqb c' "}" then prepend "}" (do_markup values Text rest')
          else Raise (ValueError SingleCloseBrace)
      | EmptyString => Raise (ValueError SingleCloseBrace)
      end
    else if Ascii.eqb c "{" then
      match rest with
      | String c' rest' =>
          if Ascii.eqb c' "{" then prepend "{" (do_markup values Text rest')
          else do_markup values (Field EmptyString) rest
      | EmptyString => Raise (ValueError SingleOpenBrace)
      end
    else prepend (String c EmptyString) (do_markup values Text rest).
Proof. reflexivity. Qed.

Lemma do_markup_in_field values n c rest :
  do_markup values (Field n) (String c rest)
  = if Ascii.eqb c "}" then
      match get_field_object values n with
      | Ok v => prepend v (do_markup values Text rest)
      | Raise e => Raise e
      | Unmodelled => Unmodelled
      end
    else if Ascii.eqb c "{" then Raise (ValueError UnexpectedOpenBrace)
    else if field_special c then Unmodelled
    else do_markup values (Field (n ++ String c EmptyString)) rest.
Proof. reflexivity. Qed.

(** A prefix that formats without failure has been read to its end, so the
    scanner goes on in text mode with what follows it. *)
Lemma do_markup_app_both values rest pre :
  (forall m s, do_markup values m pre = Ok s ->
     do_markup values m (pre ++ rest) = prepend s (do_markup values Text rest))
  /\ (forall c m s, do_markup values m (String c pre) = Ok s ->
     do_markup values m (String c pre ++ rest) = prepend s (do_markup values Text rest)).
Proof.
  induction pre as [|a pre [IH1 IH2]].
  - split.
    + intros [|n] s H; simpl in H; [|discriminate].
      inversion H; subst. simpl. now rewrite prepend_empty.
    + intros c [|n] s H.
      * rewrite do_markup_text in H.
        change (String c "" ++ rest) with (String c rest).
        destruct (Ascii.eqb c "}") eqn:Ec; [discriminate|].
        destruct (Ascii.eqb c "{") eqn:Eo; [discriminate|].
        simpl in H. inversion H; subst.
        rewrite do_markup_text, Ec, Eo. reflexivity.
      * rewrite do_markup_in_field in H.
        change (String c "" ++ rest) with (String c rest).
        rewrite do_markup_in_field.
        destruct (Ascii.eqb c "}").
        -- destruct (get_field_object values n); try discriminate.
           simpl in H. inversion H; subst. now rewrite append_empty_r.
        -- destruct (Ascii.eqb c "{"); [discriminate|].
           destruct (field_special c); discriminate.
  - split; [exact (IH2 a)|].
    intros c [|n] s H.
    + change (String c (String a pre) ++ rest) with (String c (String a (pre ++ rest))).
      rewrite do_markup_text in H. rewrite do_markup_text.
      destruct (Ascii.eqb c "}").
      { destruct (Ascii.eqb a "}"); [|discriminate].
        prepend_inv H. rewrite (IH1 _ _ Hu). now rewrite prepend_prepend. }
      destruct (Ascii.eqb c "{").
      { destruct (Ascii.eqb a "{").
        - prepend_inv H. rewrite (IH1 _ _ Hu). now rewrite prepend_prepend.
        - exact (IH2 a (Field "") s H). }
      prepend_inv H.
      change (String a (pre ++ rest)) with (String a pre ++ rest).
      rewrite (IH2 a Text _ Hu). now rewrite prepend_prepend.
    + change (String c (String a pre) ++ rest) with (String c (String a pre ++ rest)).
      rewrite do_markup_in_field in H. rewrite do_markup_in_field.
      destruct (Ascii.eqb c "}").
      { destruct (get_field_object values n); try discriminate.
        prepend_inv H. rewrite (IH2 a Text _ Hu). now rewrite prepend_prepend. }
      destruct (Ascii.eqb c "{"); [discriminate|].
      destruct (field_special c); [discriminate|].
      exact (IH2 a _ s H).
Qed.

Lemma format_map_app values pre rest s :
  format_map pre values = Ok s ->
  format_map (pre ++ rest) values = prepend s (format_map rest values).
Proof. intros H. exact (proj1 (do_markup_app_both values rest pre) Text s H). Qed.

(** Reading a field name up to its closing brace. *)
Lemma do_markup_field values k post n :
  name_chars k = true ->
  do_markup values (Field n) (k ++ "}" ++ post)
  = match get_field_object values (n ++ k) with
    | Ok v => prepend v (do_markup values Text post)
    | Raise e => Raise e
    | Unmodelled => Unmodelled
    end.
Proof.
  revert n; induction k as [|c k IH]; intros n Hk.
  - simpl. now rewrite append_empty_r.
  - simpl in Hk.
    apply andb_prop in Hk; destruct Hk as [Hk Hk'].
    apply andb_prop in Hk; destruct Hk as [Hk Hs].
    apply andb_prop in Hk; destruct Hk as [Ho Hc].
    apply negb_true_iff in Ho, Hc, Hs.
    change (String c k ++ "}" ++ post) with (String c (k ++ "}" ++ post)).
    rewrite do_markup_in_field, Hc, Ho, Hs.
    rewrite (IH _ Hk'). now rewrite append_assoc.
Qed.

Lemma format_map_placeholder values k post :
  name_chars k = true ->
  format_map ("{" ++ k ++ "}" ++ post) values
  = match get_field_object values k with
    | Ok v => prepend v (format_map post values)
    | Raise e => Raise e
    | Unmodelled => Unmodelled
    end.
Proof.
  intros Hk. unfold format_map.
  destruct k as [|c k].
  - reflexivity.
  - pose proof (do_markup_field values (String c k) post "" Hk) as H.
    simpl in Hk.
    apply andb_prop in Hk; destruct Hk as [Hk _].
    apply andb_prop in Hk; destruct Hk as [Hk _].
    apply andb_prop in Hk; destruct Hk as [Ho _].
    apply negb_true_iff in Ho.
    change ("{" ++ String c k ++ "}" ++ post) with (String "{" (String c (k ++ "}" ++ post))).
    change (String c k ++ "}" ++ post) with (String c (k ++ "}" ++ post)) in H.
    rewrite do_markup_text, Ho.
    replace (Ascii.eqb "{" "}") with false by reflexivity.
    replace (Ascii.eqb "{" "{") with true by reflexivity.
    cbv beta iota. exact H.
Qed.

Lemma get_field_object_missing values k :
  placeholder_name k = true -> dict_get values k = None ->
  get_field_object values k = Raise (KeyError k).
Proof.
  unfold placeholder_name, get_field_object; intros Hk Hget.
  apply andb_prop in Hk; destruct Hk as [Hd _]. apply negb_true_iff in Hd.
  now rewrite Hd, Hget.
Qed.

Lemma get_field_object_present values k v :
  placeholder_name k = true -> dict_get values k = Some v ->
  get_field_object values k = Ok v.
Proof.
  unfold placeholder_name, get_field_object; intros Hk Hget.
  apply andb_prop in Hk; destruct Hk as [Hd _]. apply negb_true_iff in Hd.
  now rewrite Hd, Hget.
Qed.

(** The first placeholder without an entry decides the result. *)
Lemma format_map_first_missing values pre k post s :
  format_map pre values = Ok s ->
  placeholder_name k = true ->
  dict_get values k = None ->
  format_map (pre ++ "{" ++ k ++ "}" ++ post) values = Raise (KeyError k).
Proof.
  intros Hpre Hk Hget.
  rewrite (format_map_app _ _ _ _ Hpre).
  assert (Hn : name_chars k = true)
    by (unfold placeholder_name in Hk; apply andb_prop in Hk; tauto).
  rewrite (format_map_placeholder _ _ _ Hn).
  now rewrite (get_field_object_missing _ _ Hk Hget).
Qed.

Lemma format_map_brace_free values a :
  brace_free a = true -> format_map a values = Ok a.
Proof.
  unfold format_map. induction a as [|c a IH]; intros H; [reflexivity|].
  simpl in H.
  apply andb_prop in H; destruct H as [H Ha].
  apply andb_prop in H; destruct H as [Ho Hc].
  apply negb_true_iff in Ho, Hc.
  rewrite do_markup_text, Hc, Ho, (IH Ha). reflexivity.
Qed.

Lemma format_map_two_placeholders values a k1 b k2 v1 v2 :
  brace_free a = true -> brace_free b = true ->
  placeholder_name k1 = true -> placeholder_name k2 = true ->
  dict_get values k1 = Some v1 -> dict_get values k2 = Some v2 ->
  format_map (a ++ "{" ++ k1 ++ "}" ++ b ++ "{" ++ k2 ++ "}") values
  = Ok (a ++ v1 ++ b ++ v2).
Proof.
  intros Ha Hb Hk1 Hk2 H1 H2.
  assert (Hn1 : name_chars k1 = true)
    by (unfold placeholder_name in Hk1; apply andb_prop in Hk1; tauto).
  assert (Hn2 : name_chars k2 = true)
    by (unfold placeholder_name in Hk2; apply andb_prop in Hk2; tauto).
  rewrite (format_map_app _ _ _ _ (format_map_brace_free values a Ha)).
  rewrite (format_map_placeholder _ _ _ Hn1), (get_field_object_present _ _ _ Hk1 H1).
  rewrite (format_map_app _ _ _ _ (format_map_brace_free values b Hb)).
  change ("{" ++ k2 ++ "}") with ("{" ++ k2 ++ "}" ++ "").
  rewrite (format_map_placeholder _ _ _ Hn2), (get_field_object_present _ _ _ Hk2 H2).
  simpl. now rewrite append_empty_r.
Qed.

(** ** The two transformations *)

Lemma with_state_with_state p st st' : with_state (with_state p st) st' = with_state p st'.
Proof. reflexivity. Qed.

Lemma apply_ok self p s :
  format_map (template self) (dict_merge (default_values self) (vars p)) = Ok s ->
  SetStateFromBackendOptionsTransformation.apply self p
  = Returns (with_state p (dict_set (state p) (key self) s)).
Proof.
  intros H. unfold SetStateFromBackendOptionsTransformation.apply. now rewrite H.
Qed.

Lemma apply_key_error self p k :
  format_map (template self) (dict_merge (default_values self) (vars p)) = Raise (KeyError k) ->
  SetStateFromBackendOptionsTransformation.apply self p
  = Raises (KeyError (missing_key_message k (key self)
                        (dict_merge (default_values self) (vars p)))) p.
Proof.
  intros H. unfold SetStateFromBackendOptionsTransformation.apply. now rewrite H.
Qed.

Lemma dash_apply_ok self p s :
  format_map (template self) (dict_merge (default_values self) (vars p)) = Ok s ->
  SetStateFromBackendOptionsTransformationDashToUnderscore.apply self p
  = Returns (with_state p (dict_set (state p) (key self) (replace "-" "_" s))).
Proof.
  intros H. unfold SetStateFromBackendOptionsTransformationDashToUnderscore.apply.
  rewrite (apply_ok _ _ _ H). simpl state.
  now rewrite dict_get_set_same, with_state_with_state, dict_set_set.
Qed.

Lemma dash_apply_key_error self p k :
  format_map (template self) (dict_merge (default_values self) (vars p)) = Raise (KeyError k) ->
  SetStateFromBackendOptionsTransformationDashToUnderscore.apply self p
  = Raises (KeyError (missing_key_message k (key self)
                        (dict_merge (default_values self) (vars p)))) p.
Proof.
  intros H. unfold SetStateFromBackendOptionsTransformationDashToUnderscore.apply.
  now rewrite (apply_key_error _ _ _ H).
Qed.

Lemma apply_returns_inv self p p1 :
  SetStateFromBackendOptionsTransformation.apply self p = Returns p1 ->
  exists s,
    format_map (template self) (dict_merge (default_values self) (vars p)) = Ok s
    /\ p1 = with_state p (dict_set (state p) (key self) s).
Proof.
  unfold SetStateFromBackendOptionsTransformation.apply.
  destruct (format_map _ _) as [s|[k|e]|]; intros H; inversion H; eauto.
Qed.

Lemma apply_raises_inv self p e p' :
  SetStateFromBackendOptionsTransformation.apply self p = Raises e p' -> p' = p.
Proof.
  unfold SetStateFromBackendOptionsTransformation.apply.
  destruct (format_map _ _) as [s|[k|e']|]; intros H; inversion H; reflexivity.
Qed.

Example format_map_examples :
  format_map "t_{r}_x_{v}" [("v", "2_0"); ("r", "eu-west-1")] = Ok "t_eu-west-1_x_2_0"
  /\ format_map "a{{b}}{r}" [("r", "1")] = Ok "a{b}1"
  /\ format_map "{r}{" [] = Raise (KeyError "r")
  /\ format_map "}{r}" [] = Raise (ValueError SingleCloseBrace)
  /\ format_map "{}" [("", "x")] = Raise (ValueError PositionalField)
  /\ format_map "{r!r}" [("r", "x")] = Unmodelled.
Proof. repeat split; reflexivity. Qed.

(** C3: when the template reaches a placeholder that has no entry in the
    merged mapping, [SetStateFromBackendOptionsTransformation.apply] raises
    a [KeyError] whose message names the missing key, the state key and the
    list of available keys, and the pipeline, so its run-scoped state, is
    exactly as before the call; whatever [apply] raises, it raises before
    it writes. *)
Theorem apply_missing_key_raises_state_unchanged :
  forall (self : Transformation) (pipeline : ProcessingPipeline),
    let values := dict_merge (default_values self) (vars pipeline) in
    (forall pre k post s : string,
        template self = pre ++ "{" ++ k ++ "}" ++ post ->
        format_map pre values = Ok s ->
        placeholder_name k = true ->
        dict_get values k = None ->
        SetStateFromBackendOptionsTransformation.apply self pipeline
        = Raises
            (KeyError
               ("Missing key '" ++ k ++ "' in template substitution for '"
                ++ key self ++ "'. "
                ++ "Available keys: " ++ repr_list (dict_keys values) ++ ". "
                ++ "You likely need to set the key '" ++ k ++ "' via 'backend options'."))
            pipeline)
    /\ (forall e pipeline',
           SetStateFromBackendOptionsTransformation.apply self pipeline = Raises e pipeline' ->
           state pipeline' = state pipeline).
Proof.
  intros self pipeline values. split.
  - intros pre k post s Htpl Hpre Hk Hget.
    apply apply_key_error. rewrite Htpl.
    exact (format_map_first_missing _ _ _ _ _ Hpre Hk Hget).
  - intros e pipeline' H. now rewrite (apply_raises_inv _ _ _ _ H).
Qed.

Lemma apply_missing_key_raises_state_unchanged_witness :
  let self := {| key := "table_name"; template := "t_{r}_{v}";
                 default_values := [("v", "2_0")] |} in
  let pipeline := with_state athena_pipeline_security_lake_table_name [("seen", "yes")] in
  SetStateFromBackendOptionsTransformation.apply self pipeline
  = Raises
      (KeyError
         ("Missing key 'r' in template substitution for 'table_name'. "
          ++ "Available keys: ['v']. "
          ++ "You likely need to set the key 'r' via 'backend options'."))
      pipeline.
Proof.
  intros self pipeline.
  exact (proj1 (apply_missing_key_raises_state_unchanged self pipeline)
           "t_" "r" "_{v}" "t_" eq_refl eq_refl eq_refl eq_refl).
Defined.

(** C7: the template is substituted from one merged mapping; on a key that
    both mappings have, the merged mapping holds the option's value, and
    that value is the one a placeholder of that name is replaced by. *)
Theorem apply_options_override_defaults :
  forall (self : Transformation) (pipeline : ProcessingPipeline),
    wf_dict (default_values self) ->
    wf_dict (vars pipeline) ->
    let values := dict_merge (default_values self) (vars pipeline) in
    (forall k,
        dict_get values k
        = match dict_get (vars pipeline) k with
          | Some v => Some v
          | None => dict_get (default_values self) k
          end)
    /\ (forall pre k post s1 s2 vd vo,
           template self = pre ++ "{" ++ k ++ "}" ++ post ->
           placeholder_name k = true ->
           format_map pre values = Ok s1 ->
           format_map post values = Ok s2 ->
           dict_get (default_values self) k = Some vd ->
           dict_get (vars pipeline) k = Some vo ->
           SetStateFromBackendOptionsTransformation.apply self pipeline
           = Returns (with_state pipeline
                        (dict_set (state pipeline) (key self) (s1 ++ vo ++ s2)))).
Proof.
  intros self pipeline Hd Ho values.
  assert (Hget : forall k,
             dict_get values k
             = match dict_get (vars pipeline) k with
               | Some v => Some v
               | None => dict_get (default_values self) k
               end)
    by (intros k; apply dict_merge_get; assumption).
  split; [exact Hget|].
  intros pre k post s1 s2 vd vo Htpl Hk Hpre Hpost Hvd Hvo.
  apply apply_ok. fold values. rewrite Htpl.
  rewrite (format_map_app _ _ _ _ Hpre).
  assert (Hn : name_chars k = true)
    by (unfold placeholder_name in Hk; apply andb_prop in Hk; tauto).
  rewrite (format_map_placeholder _ _ _ Hn).
  assert (Hk' : dict_get values k = Some vo) by (rewrite Hget, Hvo; reflexivity).
  rewrite (get_field_object_present _ _ _ Hk Hk'), Hpost. reflexivity.
Qed.

Lemma apply_options_override_defaults_witness :
  let self := {| key := "table_name"; template := "t_{r}_{v}";
                 default_values := [("v", "2_0")] |} in
  let pipeline :=
    {| name := "p"; allowed_backends := ["athena"]; priority := 20; items := [];
       vars := [("r", "eu-west-1"); ("v", "1_0")]; state := [] |} in
  dict_get (dict_merge (default_values self) (vars pipeline)) "v" = Some "1_0"
  /\ SetStateFromBackendOptionsTransformation.apply self pipeline
     = Returns (with_state pipeline [("table_name", "t_eu-west-1_1_0")]).
Proof.
  intros self pipeline.
  assert (Hd : wf_dict (default_values self))
    by (repeat constructor; simpl; tauto).
  assert (Ho : wf_dict (vars pipeline)).
  { repeat constructor; simpl; try tauto.
    intros [H|[]]; discriminate H. }
  destruct (apply_options_override_defaults self pipeline Hd Ho) as [Hget Hsub].
  split.
  - exact (Hget "v").
  - exact (Hsub "t_{r}_" "v" "" "t_eu-west-1_" "" "2_0" "1_0"
             eq_refl eq_refl eq_refl eq_refl eq_refl eq_refl).
Defined.

(** C8: when substitution succeeds with the string [s], the dash variant
    returns and leaves under the state key the string [s] with every [-]
    replaced by [_]: same length, every other character in place; the
    options and the other state keys are as before. *)
Theorem dash_apply_replaces_every_dash :
  forall (self : Transformation) (pipeline : ProcessingPipeline) (s : string),
    format_map (template self) (dict_merge (default_values self) (vars pipeline)) = Ok s ->
    exists pipeline',
      SetStateFromBackendOptionsTransformationDashToUnderscore.apply self pipeline
      = Returns pipeline'
      /\ dict_get (state pipeline') (key self) = Some (replace "-" "_" s)
      /\ String.length (replace "-" "_" s) = String.length s
      /\ (forall i : nat,
             String.get i (replace "-" "_" s)
             = option_map (fun c => if Ascii.eqb c "-" then "_"%char else c) (String.get i s))
      /\ vars pipeline' = vars pipeline
      /\ (forall k, k <> key self ->
             dict_get (state pipeline') k = dict_get (state pipeline) k).
Proof.
  intros self pipeline s H.
  exists (with_state pipeline (dict_set (state pipeline) (key self) (replace "-" "_" s))).
  split; [exact (dash_apply_ok _ _ _ H)|].
  split; [apply dict_get_set_same|].
  split; [apply replace_length|].
  split; [intros i; apply replace_get|].
  split; [reflexivity|].
  intros k Hk. simpl. apply dict_get_set_other. congruence.
Qed.

Lemma dash_apply_replaces_every_dash_witness :
  let self := {| key := "table_name"; template := "t_{r}_{v}";
                 default_values := [("v", "2-0")] |} in
  let pipeline :=
    {| name := "p"; allowed_backends := ["athena"]; priority := 20; items := [];
       vars := [("r", "eu-west-1")]; state := [("other", "a-b")] |} in
  exists pipeline',
    SetStateFromBackendOptionsTransformationDashToUnderscore.apply self pipeline
    = Returns pipeline'
    /\ dict_get (state pipeline') "table_name" = Some "t_eu_west_1_2_0"
    /\ dict_get (state pipeline') "other" = Some "a-b".
Proof.
  intros self pipeline.
  destruct (dash_apply_replaces_every_dash self pipeline "t_eu-west-1_2-0" eq_refl)
    as [pipeline' [Hrun [Hget [_ [_ [_ Hother]]]]]].
  exists pipeline'. split; [exact Hrun|]. split; [exact Hget|].
  rewrite (Hother "other"); [reflexivity | discriminate].
Defined.

(** C9: a second application with the same template, defaults and options
    leaves the pipeline, so the value under the state key, exactly as the
    first one left it, for the plain and for the dash variant; an
    application that raises leaves the pipeline as it found it. *)
Theorem apply_idempotent :
  forall (self : Transformation) (pipeline : ProcessingPipeline),
    (forall pipeline1,
        SetStateFromBackendOptionsTransformation.apply self pipeline = Returns pipeline1 ->
        SetStateFromBackendOptionsTransformation.apply self pipeline1 = Returns pipeline1)
    /\ (forall pipeline1,
        SetStateFromBackendOptionsTransformationDashToUnderscore.apply self pipeline
        = Returns pipeline1 ->
        SetStateFromBackendOptionsTransformationDashToUnderscore.apply self pipeline1
        = Returns pipeline1)
    /\ (forall e pipeline1,
        SetStateFromBackendOptionsTransformation.apply self pipeline = Raises e pipeline1 ->
        pipeline1 = pipeline)
    /\ (forall e pipeline1,
        SetStateFromBackendOptionsTransformationDashToUnderscore.apply self pipeline
        = Raises e pipeline1 ->
        pipeline1 = pipeline).
Proof.
  intros self pipeline. repeat split.
  - intros p1 H.
    apply apply_returns_inv in H; destruct H as [s [Hs ->]].
    rewrite (apply_ok self (with_state pipeline _) s Hs). simpl state.
    now rewrite with_state_with_state, dict_set_set.
  - intros p1 H.
    unfold SetStateFromBackendOptionsTransformationDashToUnderscore.apply in H.
    destruct (SetStateFromBackendOptionsTransformation.apply self pipeline)
      as [p0| |] eqn:Hrun; try discriminate.
    apply apply_returns_inv in Hrun; destruct Hrun as [s [Hs ->]].
    simpl state in H. rewrite dict_get_set_same in H.
    inversion H; subst p1; clear H.
    rewrite with_state_with_state, dict_set_set.
    rewrite (dash_apply_ok self (with_state pipeline _) s Hs). simpl state.
    now rewrite with_state_with_state, dict_set_set.
  - intros e p1 H. exact (apply_raises_inv _ _ _ _ H).
  - intros e p1 H.
    unfold SetStateFromBackendOptionsTransformationDashToUnderscore.apply in H.
    destruct (SetStateFromBackendOptionsTransformation.apply self pipeline)
      as [p0|e0 p0|] eqn:Hrun; try discriminate.
    + apply apply_returns_inv in Hrun; destruct Hrun as [s [Hs ->]].
      simpl state in H. rewrite dict_get_set_same in H. discriminate.
    + inversion H; subst. exact (apply_raises_inv _ _ _ _ Hrun).
Qed.

Lemma apply_idempotent_witness :
  let self := {| key := "table_name"; template := "t_{r}_{v}";
                 default_values := [("v", "2_0")] |} in
  let pipeline :=
    {| name := "p"; allowed_backends := ["athena"]; priority := 20; items := [];
       vars := [("r", "eu-west-1")]; state := [("table_name", "old")] |} in
  let plain1 := with_state pipeline [("table_name", "t_eu-west-1_2_0")] in
  let dash1 := with_state pipeline [("table_name", "t_eu_west_1_2_0")] in
  (SetStateFromBackendOptionsTransformation.apply self pipeline = Returns plain1
   /\ SetStateFromBackendOptionsTransformation.apply self plain1 = Returns plain1)
  /\ (SetStateFromBackendOptionsTransformationDashToUnderscore.apply self pipeline
      = Returns dash1
      /\ SetStateFromBackendOptionsTransformationDashToUnderscore.apply self dash1
         = Returns dash1).
Proof.
  intros self pipeline plain1 dash1.
  destruct (apply_idempotent self pipeline) as [Hplain [Hdash _]].
  split; (split; [reflexivity|]).
  - exact (Hplain plain1 eq_refl).
  - exact (Hdash dash1 eq_refl).
Defined.

(** ** The security-lake table-name pipeline *)

Lemma region_key_missing_in_merge options :
  dict_get options region_key = None ->
  dict_get (dict_merge [(version_key, "2_0")] options) region_key = None.
Proof. intros H. apply dict_merge_get_none; [reflexivity | exact H]. Qed.

Lemma table_items_shape it :
  In it (items athena_pipeline_security_lake_table_name) ->
  exists b,
    brace_free b = true
    /\ transformation it
       = {| key := "table_name";
            template := "amazon_security_lake_table_" ++ "{" ++ region_key ++ "}"
                        ++ b ++ "{" ++ version_key ++ "}";
            default_values := [(version_key, "2_0")] |}.
Proof.
  simpl.
  intros [<-|[<-|[<-|[<-|[<-|[<-|[<-|[<-|[]]]]]]]]]; simpl;
    [ exists "_cloud_trail_mgmt_" | exists "_s3_data_" | exists "_lambda_execution_"
    | exists "_route53_" | exists "_sh_findings_" | exists "_vpc_flow_"
    | exists "_waf_" | exists "_eks_audit_" ];
    split; reflexivity.
Qed.

(** C10: every transformation of the security-lake pipeline has a template
    that names the region placeholder and then the version placeholder,
    and a default for the version only, ["2_0"].  Applied with options that
    lack the region it raises the missing-key error naming
    ['backend_aws_table_region'] and leaves the pipeline as it was; applied
    with options that hold only the region it succeeds, with ["2_0"] in the
    place of the version. *)
Theorem table_name_items_require_region :
  forall it : ProcessingItem,
    In it (items athena_pipeline_security_lake_table_name) ->
    let self := transformation it in
    exists a b,
      brace_free a = true /\ brace_free b = true
      /\ template self
         = a ++ "{backend_aws_table_region}" ++ b ++ "{backend_aws_table_version}"
      /\ key self = "table_name"
      /\ default_values self = [("backend_aws_table_version", "2_0")]
      /\ (forall pipeline,
             dict_get (vars pipeline) "backend_aws_table_region" = None ->
             SetStateFromBackendOptionsTransformationDashToUnderscore.apply self pipeline
             = Raises
                 (KeyError
                    (missing_key_message "backend_aws_table_region" "table_name"
                       (dict_merge [("backend_aws_table_version", "2_0")] (vars pipeline))))
                 pipeline)
      /\ (forall pipeline region,
             vars pipeline = [("backend_aws_table_region", region)] ->
             SetStateFromBackendOptionsTransformationDashToUnderscore.apply self pipeline
             = Returns
                 (with_state pipeline
                    (dict_set (state pipeline) "table_name"
                       (replace "-" "_" (a ++ region ++ b ++ "2_0"))))).
Proof.
  intros it Hin self.
  destruct (table_items_shape it Hin) as [b [Hb Hshape]].
  exists "amazon_security_lake_table_", b.
  subst self. rewrite Hshape. cbn [template key default_values].
  split; [reflexivity|]. split; [exact Hb|].
  split; [reflexivity|]. split; [reflexivity|]. split; [reflexivity|].
  split.
  - intros pipeline Hnone.
    apply (dash_apply_key_error
             {| key := "table_name";
                template := "amazon_security_lake_table_" ++ "{" ++ region_key ++ "}"
                            ++ b ++ "{" ++ version_key ++ "}";
                default_values := [(version_key, "2_0")] |}).
    cbn [template key default_values].
    apply (format_map_first_missing _ "amazon_security_lake_table_" region_key
             (b ++ "{" ++ version_key ++ "}") "amazon_security_lake_table_");
      [reflexivity | reflexivity | exact (region_key_missing_in_merge _ Hnone)].
  - intros pipeline region Hvars.
    apply (dash_apply_ok
             {| key := "table_name";
                template := "amazon_security_lake_table_" ++ "{" ++ region_key ++ "}"
                            ++ b ++ "{" ++ version_key ++ "}";
                default_values := [(version_key, "2_0")] |}).
    cbn [template key default_values]. rewrite Hvars.
    apply format_map_two_placeholders; try reflexivity. exact Hb.
Qed.

Lemma table_name_items_require_region_witness :
  let it :=
    {| identifier := "table_amazon_security_lake_table_{backend_aws_table_region}_waf_{backend_aws_table_version}";
       transformation :=
         {| key := "table_name";
            template := "amazon_security_lake_table_{backend_aws_table_region}_waf_{backend_aws_table_version}";
            default_values := [("backend_aws_table_version", "2_0")] |};
       rule_conditions := [{| product := "aws"; service := "waf" |}] |} in
  In it (items athena_pipeline_security_lake_table_name)
  /\ exists a b,
       template (transformation it)
       = a ++ "{backend_aws_table_region}" ++ b ++ "{backend_aws_table_version}"
       /\ SetStateFromBackendOptionsTransformationDashToUnderscore.apply (transformation it)
            {| name := "p"; allowed_backends := ["athena"]; priority := 20; items := [];
               vars := [("backend_aws_table_region", "us-east-1")]; state := [] |}
          = Returns
              {| name := "p"; allowed_backends := ["athena"]; priority := 20; items := [];
                 vars := [("backend_aws_table_region", "us-east-1")];
                 state := [("table_name", replace "-" "_" (a ++ "us-east-1" ++ b ++ "2_0"))] |}.
Proof.
  intros it.
  assert (Hin : In it (items athena_pipeline_security_lake_table_name))
    by (simpl; tauto).
  split; [exact Hin|].
  destruct (table_name_items_require_region it Hin)
    as [a [b [_ [_ [Htpl [_ [_ [_ Hok]]]]]]]].
  exists a, b. split; [exact Htpl|].
  exact (Hok {| name := "p"; allowed_backends := ["athena"]; priority := 20; items := [];
                vars := [("backend_aws_table_region", "us-east-1")]; state := [] |}
           "us-east-1" eq_refl).
Defined.

Example table_name_example :
  SetStateFromBackendOptionsTransformationDashToUnderscore.apply
    {| key := "table_name";
       template := "amazon_security_lake_table_{backend_aws_table_region}_waf_{backend_aws_table_version}";
       default_values := [("backend_aws_table_version", "2_0")] |}
    {| name := "p"; allowed_backends := ["athena"]; priority := 20; items := [];
       vars := [("backend_aws_table_region", "us-east-1")]; state := [] |}
  = Returns
      {| name := "p"; allowed_backends := ["athena"]; priority := 20; items := [];
         vars := [("backend_aws_table_region", "us-east-1")];
         state := [("table_name", "amazon_security_lake_table_us_east_1_waf_2_0")] |}.
Proof. reflexivity. Qed.

(** ** Templates written from pieces *)

Lemma do_markup_literal values text rest :
  do_markup values Text (double_braces text ++ rest)
  = prepend text (do_markup values Text rest).
Proof.
  induction text as [|c text IH]; simpl double_braces.
  - simpl. now rewrite prepend_empty.
  - destruct (Ascii.eqb c "{") eqn:Eo.
    + apply Ascii.eqb_eq in Eo; subst c. simpl orb. cbv iota.
      change (String "{" (String "{" (double_braces text)) ++ rest)
        with (String "{" (String "{" (double_braces text ++ rest))).
      rewrite do_markup_text.
      replace (Ascii.eqb "{" "}") with false by reflexivity.
      replace (Ascii.eqb "{" "{") with true by reflexivity.
      cbv iota. rewrite IH. apply prepend_prepend.
    + destruct (Ascii.eqb c "}") eqn:Ec.
      * apply Ascii.eqb_eq in Ec; subst c. simpl orb. cbv iota.
        change (String "}" (String "}" (double_braces text)) ++ rest)
          with (String "}" (String "}" (double_braces text ++ rest))).
        rewrite do_markup_text.
        replace (Ascii.eqb "}" "}") with true by reflexivity.
        cbv iota. rewrite IH. apply prepend_prepend.
      * simpl orb. cbv iota.
        change (String c (double_braces text) ++ rest)
          with (String c (double_braces text ++ rest)).
        rewrite do_markup_text, Ec, Eo, IH. apply prepend_prepend.
Qed.

Lemma placeholder_name_chars k : placeholder_name k = true -> name_chars k = true.
Proof. unfold placeholder_name. intros H. apply andb_prop in H. tauto. Qed.

(** The scanner, on a written template, is substitution piece by piece. *)
Lemma format_map_write_template values pieces :
  Forall (fun k => placeholder_name k = true) (placeholders pieces) ->
  format_map (write_template pieces) values = substitute values pieces.
Proof.
  induction pieces as [|[text|k] pieces IH]; intros Hnames.
  - reflexivity.
  - simpl. unfold format_map in *. rewrite do_markup_literal. now rewrite (IH Hnames).
  - simpl in Hnames. inversion Hnames as [|? ? Hk Hrest]; subst.
    change (write_template (Placeholder k :: pieces))
      with ("{" ++ k ++ "}" ++ write_template pieces).
    rewrite (format_map_placeholder _ _ _ (placeholder_name_chars _ Hk)).
    simpl substitute. destruct (dict_get values k) as [v|] eqn:Hget.
    + now rewrite (get_field_object_present _ _ _ Hk Hget), (IH Hrest).
    + now rewrite (get_field_object_missing _ _ Hk Hget).
Qed.

Lemma substitute_ok_iff values pieces :
  (exists s, substitute values pieces = Ok s)
  <-> (forall k, In k (placeholders pieces) -> exists v, dict_get values k = Some v).
Proof.
  induction pieces as [|[text|k] pieces IH]; simpl.
  - split; [intros _ k [] | intros _; eauto].
  - rewrite <- IH. split.
    + intros [s H]. apply prepend_ok in H. destruct H as [u [Hu _]]. eauto.
    + intros [s H]. rewrite H. simpl. eauto.
  - split.
    + intros [s H] k' [<-|Hin].
      * destruct (dict_get values k); [eauto | discriminate].
      * destruct (dict_get values k); [|discriminate].
        apply prepend_ok in H. destruct H as [u [Hu _]].
        apply (proj1 IH); eauto.
    + intros H. destruct (H k (or_introl eq_refl)) as [v Hv]. rewrite Hv.
      destruct (proj2 IH (fun k' Hin => H k' (or_intror Hin))) as [s Hs].
      rewrite Hs. simpl. eauto.
Qed.

Lemma substitute_raises values pieces e :
  substitute values pieces = Raise e ->
  exists k, e = KeyError k /\ In k (placeholders pieces) /\ dict_get values k = None.
Proof.
  induction pieces as [|[text|k] pieces IH]; simpl; intros H.
  - discriminate.
  - destruct (substitute values pieces); simpl in H; try discriminate.
    inversion H; subst. exact (IH eq_refl).
  - destruct (dict_get values k) as [v|] eqn:Hget.
    + destruct (substitute values pieces); simpl in H; try discriminate.
      inversion H; subst. destruct (IH eq_refl) as [k' [He [Hin Hk']]]. eauto.
    + inversion H; subst. eauto.
Qed.

Lemma substitute_modelled values pieces : substitute values pieces <> Unmodelled.
Proof.
  induction pieces as [|[text|k] pieces IH]; simpl.
  - discriminate.
  - destruct (substitute values pieces); simpl; congruence.
  - destruct (dict_get values k); [|discriminate].
    destruct (substitute values pieces); simpl; congruence.
Qed.

Lemma substitute_ext values1 values2 pieces :
  (forall k, In k (placeholders pieces) -> dict_get values1 k = dict_get values2 k) ->
  substitute values1 pieces = substitute values2 pieces.
Proof.
  induction pieces as [|[text|k] pieces IH]; simpl; intros H.
  - reflexivity.
  - now rewrite (IH H).
  - rewrite (H k (or_introl eq_refl)), (IH (fun k' Hin => H k' (or_intror Hin))).
    reflexivity.
Qed.

(** X1: on a template written from literal text (braces doubled) and
    named placeholders, [apply] does what substitution piece by piece
    does: it writes the substituted text under the key, or raises the
    missing-key error for the first placeholder without an entry and
    leaves the pipeline as it was; nothing else can happen. *)
Theorem apply_written_template :
  forall (self : Transformation) (pipeline : ProcessingPipeline) (pieces : list piece),
    template self = write_template pieces ->
    Forall (fun k => placeholder_name k = true) (placeholders pieces) ->
    let values := dict_merge (default_values self) (vars pipeline) in
    (exists s,
        substitute values pieces = Ok s
        /\ SetStateFromBackendOptionsTransformation.apply self pipeline
           = Returns (with_state pipeline (dict_set (state pipeline) (key self) s)))
    \/ (exists k,
           substitute values pieces = Raise (KeyError k)
           /\ In k (placeholders pieces)
           /\ dict_get values k = None
           /\ SetStateFromBackendOptionsTransformation.apply self pipeline
              = Raises (KeyError (missing_key_message k (key self) values)) pipeline).
Proof.
  intros self pipeline pieces Htpl Hnames values.
  pose proof (format_map_write_template values pieces Hnames) as Hfmt.
  rewrite <- Htpl in Hfmt. fold values in Hfmt.
  destruct (substitute values pieces) as [s|e|] eqn:Hsub.
  - left. exists s. split; [reflexivity | now apply apply_ok].
  - destruct (substitute_raises _ _ _ Hsub) as [k [-> [Hin Hget]]].
    right. exists k. repeat split; try assumption. now apply apply_key_error.
  - exfalso. exact (substitute_modelled _ _ Hsub).
Qed.

Lemma apply_written_template_witness :
  let self := {| key := "table_name"; template := "{{{r}}}-{v}";
                 default_values := [("v", "2_0")] |} in
  let pipeline :=
    {| name := "p"; allowed_backends := ["athena"]; priority := 20; items := [];
       vars := [("r", "eu-west-1")]; state := [] |} in
  SetStateFromBackendOptionsTransformation.apply self pipeline
  = Returns (with_state pipeline [("table_name", "{eu-west-1}-2_0")]).
Proof.
  intros self pipeline.
  destruct (apply_written_template self pipeline
              [Literal "{"; Placeholder "r"; Literal "}-"; Placeholder "v"] eq_refl)
    as [[s [Hs Hrun]]|[k [Hk _]]].
  - repeat constructor.
  - rewrite Hrun. inversion Hs. reflexivity.
  - discriminate Hk.
Defined.

(** X2: on a written template [apply] returns exactly when every
    placeholder has an entry in the merged mapping. *)
Theorem apply_returns_iff_all_present :
  forall (self : Transformation) (pipeline : ProcessingPipeline) (pieces : list piece),
    template self = write_template pieces ->
    Forall (fun k => placeholder_name k = true) (placeholders pieces) ->
    ((exists pipeline',
         SetStateFromBackendOptionsTransformation.apply self pipeline = Returns pipeline')
     <-> (forall k, In k (placeholders pieces) ->
            exists v, dict_get (dict_merge (default_values self) (vars pipeline)) k = Some v)).
Proof.
  intros self pipeline pieces Htpl Hnames.
  rewrite <- substitute_ok_iff.
  pose proof (format_map_write_template
                (dict_merge (default_values self) (vars pipeline)) pieces Hnames) as Hfmt.
  rewrite <- Htpl in Hfmt. split.
  - intros [p' H]. apply apply_returns_inv in H. destruct H as [s [Hs _]].
    exists s. now rewrite <- Hfmt.
  - intros [s Hs]. rewrite <- Hfmt in Hs. eexists. exact (apply_ok _ _ _ Hs).
Qed.

Lemma apply_returns_iff_all_present_witness :
  let self := {| key := "table_name"; template := "t_{r}_{v}";
                 default_values := [("v", "2_0")] |} in
  let pipeline :=
    {| name := "p"; allowed_backends := ["athena"]; priority := 20; items := [];
       vars := [("x", "1")]; state := [] |} in
  ~ exists pipeline',
      SetStateFromBackendOptionsTransformation.apply self pipeline = Returns pipeline'.
Proof.
  intros self pipeline Hret.
  assert (Hnames : Forall (fun k => placeholder_name k = true)
                     (placeholders [Literal "t_"; Placeholder "r"; Literal "_"; Placeholder "v"]))
    by (repeat constructor).
  destruct (proj1 (apply_returns_iff_all_present self pipeline
                     [Literal "t_"; Placeholder "r"; Literal "_"; Placeholder "v"]
                     eq_refl Hnames) Hret "r" (or_introl eq_refl)) as [v Hv].
  discriminate Hv.
Defined.

Lemma digits_name_chars k : all_digits k = true -> name_chars k = true.
Proof.
  induction k as [|c k IH]; intros H; [reflexivity|].
  simpl in H. apply andb_prop in H; destruct H as [Hc Hk].
  simpl. rewrite (IH Hk), andb_true_r.
  revert Hc. destruct c as [[] [] [] [] [] [] [] []]; intros Hc;
    try discriminate Hc; reflexivity.
Qed.

Lemma format_map_positional values pre k post s :
  format_map pre values = Ok s ->
  all_digits k = true ->
  format_map (pre ++ "{" ++ k ++ "}" ++ post) values = Raise (ValueError PositionalField).
Proof.
  intros Hpre Hk.
  rewrite (format_map_app _ _ _ _ Hpre).
  rewrite (format_map_placeholder _ _ _ (digits_name_chars _ Hk)).
  unfold get_field_object. now rewrite Hk.
Qed.

Lemma apply_value_error self p e :
  format_map (template self) (dict_merge (default_values self) (vars p))
  = Raise (ValueError e) ->
  SetStateFromBackendOptionsTransformation.apply self p = Raises (ValueError e) p
  /\ SetStateFromBackendOptionsTransformationDashToUnderscore.apply self p
     = Raises (ValueError e) p.
Proof.
  intros H.
  assert (Hplain : SetStateFromBackendOptionsTransformation.apply self p
                   = Raises (ValueError e) p)
    by (unfold SetStateFromBackendOptionsTransformation.apply; now rewrite H).
  split; [exact Hplain|].
  unfold SetStateFromBackendOptionsTransformationDashToUnderscore.apply.
  now rewrite Hplain.
Qed.

(** X3: a placeholder whose name is empty or a decimal number is never
    substituted, not even when the merged mapping has an entry under that
    name: both variants raise the [ValueError] of [format_map] as it is,
    not the missing-key [KeyError], and leave the pipeline as it was. *)
Theorem apply_numeric_placeholder_raises_value_error :
  forall (self : Transformation) (pipeline : ProcessingPipeline) (pre k post s : string),
    template self = pre ++ "{" ++ k ++ "}" ++ post ->
    format_map pre (dict_merge (default_values self) (vars pipeline)) = Ok s ->
    all_digits k = true ->
    SetStateFromBackendOptionsTransformation.apply self pipeline
    = Raises (ValueError PositionalField) pipeline
    /\ SetStateFromBackendOptionsTransformationDashToUnderscore.apply self pipeline
       = Raises (ValueError PositionalField) pipeline.
Proof.
  intros self pipeline pre k post s Htpl Hpre Hk.
  apply apply_value_error. rewrite Htpl.
  exact (format_map_positional _ _ _ _ _ Hpre Hk).
Qed.

Lemma apply_numeric_placeholder_raises_value_error_witness :
  let self := {| key := "table_name"; template := "t_{0}_x";
                 default_values := [("0", "zero")] |} in
  let pipeline :=
    {| name := "p"; allowed_backends := ["athena"]; priority := 20; items := [];
       vars := [("0", "nought")]; state := [("table_name", "old")] |} in
  dict_get (dict_merge (default_values self) (vars pipeline)) "0" = Some "nought"
  /\ SetStateFromBackendOptionsTransformation.apply self pipeline
     = Raises (ValueError PositionalField) pipeline.
Proof.
  intros self pipeline. split; [reflexivity|].
  exact (proj1 (apply_numeric_placeholder_raises_value_error self pipeline
                  "t_" "0" "_x" "t_" eq_refl eq_refl eq_refl)).
Defined.

Lemma do_markup_unclosed values k n :
  name_chars k = true ->
  do_markup values (Field n) k = Raise (ValueError ExpectedCloseBrace).
Proof.
  revert n; induction k as [|c k IH]; intros n Hk; [reflexivity|].
  simpl in Hk.
  apply andb_prop in Hk; destruct Hk as [Hk Hk'].
  apply andb_prop in Hk; destruct Hk as [Hk Hs].
  apply andb_prop in Hk; destruct Hk as [Ho Hc].
  apply negb_true_iff in Ho, Hc, Hs.
  rewrite do_markup_in_field, Hc, Ho, Hs. now apply IH.
Qed.

Lemma format_map_unclosed values k :
  name_chars k = true ->
  format_map ("{" ++ k) values
  = Raise (ValueError (match k with
                       | EmptyString => SingleOpenBrace
                       | _ => ExpectedCloseBrace
                       end)).
Proof.
  intros Hk. unfold format_map. destruct k as [|c k]; [reflexivity|].
  pose proof (do_markup_unclosed values (String c k) "" Hk) as H.
  simpl in Hk.
  apply andb_prop in Hk; destruct Hk as [Hk _].
  apply andb_prop in Hk; destruct Hk as [Hk _].
  apply andb_prop in Hk; destruct Hk as [Ho _].
  apply negb_true_iff in Ho.
  change ("{" ++ String c k) with (String "{" (String c k)).
  rewrite do_markup_text, Ho.
  replace (Ascii.eqb "{" "}") with false by reflexivity.
  replace (Ascii.eqb "{" "{") with true by reflexivity.
  cbv beta iota. exact H.
Qed.

Lemma format_map_single_close values post :
  String.prefix "}" post = false ->
  format_map ("}" ++ post) values = Raise (ValueError SingleCloseBrace).
Proof.
  intros H. unfold format_map.
  change ("}" ++ post) with (String "}" post).
  rewrite do_markup_text.
  replace (Ascii.eqb "}" "}") with true by reflexivity. cbv beta iota.
  destruct post as [|c post]; [reflexivity|].
  destruct (Ascii.eqb c "}") eqn:E; [|reflexivity].
  apply Ascii.eqb_eq in E; subst c. destruct post; cbv in H; discriminate H.
Qed.

(** X4: a template with a stray brace is refused with the [ValueError] of
    [format_map], by both variants and with the pipeline left as it was:
    a placeholder that is opened and never closed, and a closing brace
    that is neither doubled nor the end of a placeholder. *)
Theorem apply_stray_brace_raises_value_error :
  forall (self : Transformation) (pipeline : ProcessingPipeline) (pre s : string),
    format_map pre (dict_merge (default_values self) (vars pipeline)) = Ok s ->
    (forall k,
        name_chars k = true ->
        template self = pre ++ "{" ++ k ->
        let e := match k with
                 | EmptyString => SingleOpenBrace
                 | _ => ExpectedCloseBrace
                 end in
        SetStateFromBackendOptionsTransformation.apply self pipeline
        = Raises (ValueError e) pipeline
        /\ SetStateFromBackendOptionsTransformationDashToUnderscore.apply self pipeline
           = Raises (ValueError e) pipeline)
    /\ (forall post,
           String.prefix "}" post = false ->
           template self = pre ++ "}" ++ post ->
           SetStateFromBackendOptionsTransformation.apply self pipeline
           = Raises (ValueError SingleCloseBrace) pipeline
           /\ SetStateFromBackendOptionsTransformationDashToUnderscore.apply self pipeline
              = Raises (ValueError SingleCloseBrace) pipeline).
Proof.
  intros self pipeline pre s Hpre. split.
  - intros k Hk Htpl e. apply apply_value_error. rewrite Htpl.
    rewrite (format_map_app _ _ _ _ Hpre), (format_map_unclosed _ _ Hk). reflexivity.
  - intros post Hpost Htpl. apply apply_value_error. rewrite Htpl.
    rewrite (format_map_app _ _ _ _ Hpre), (format_map_single_close _ _ Hpost). reflexivity.
Qed.

Lemma apply_stray_brace_raises_value_error_witness :
  let pipeline :=
    {| name := "p"; allowed_backends := ["athena"]; priority := 20; items := [];
       vars := [("r", "eu-west-1")]; state := [("table_name", "old")] |} in
  SetStateFromBackendOptionsTransformation.apply
    {| key := "table_name"; template := "t_{r}_{v"; default_values := [] |} pipeline
  = Raises (ValueError ExpectedCloseBrace) pipeline
  /\ SetStateFromBackendOptionsTransformation.apply
       {| key := "table_name"; template := "t_{r}}_x"; default_values := [] |} pipeline
     = Raises (ValueError SingleCloseBrace) pipeline.
Proof.
  intros pipeline. split.
  - exact (proj1 (proj1 (apply_stray_brace_raises_value_error
                           {| key := "table_name"; template := "t_{r}_{v";
                              default_values := [] |}
                           pipeline "t_{r}_" "t_eu-west-1_" eq_refl)
                    "v" eq_refl eq_refl)).
  - exact (proj1 (proj2 (apply_stray_brace_raises_value_error
                           {| key := "table_name"; template := "t_{r}}_x";
                              default_values := [] |}
                           pipeline "t_{r}" "t_eu-west-1" eq_refl)
                    "_x" eq_refl eq_refl)).
Defined.

(** ** What the two variants write *)

Lemma dash_apply_returns_inv self p p1 :
  SetStateFromBackendOptionsTransformationDashToUnderscore.apply self p = Returns p1 ->
  exists s,
    format_map (template self) (dict_merge (default_values self) (vars p)) = Ok s
    /\ p1 = with_state p (dict_set (state p) (key self) (replace "-" "_" s)).
Proof.
  intros H.
  destruct (format_map (template self) (dict_merge (default_values self) (vars p)))
    as [s|e|] eqn:Hfmt.
  - exists s. split; [reflexivity|].
    rewrite (dash_apply_ok _ _ _ Hfmt) in H. now inversion H.
  - exfalso. unfold SetStateFromBackendOptionsTransformationDashToUnderscore.apply,
      SetStateFromBackendOptionsTransformation.apply in H.
    rewrite Hfmt in H. destruct e; discriminate H.
  - exfalso. unfold SetStateFromBackendOptionsTransformationDashToUnderscore.apply,
      SetStateFromBackendOptionsTransformation.apply in H.
    rewrite Hfmt in H. discriminate H.
Qed.

Lemma dash_raises_iff_plain_raises self p e p1 :
  SetStateFromBackendOptionsTransformationDashToUnderscore.apply self p = Raises e p1
  <-> SetStateFromBackendOptionsTransformation.apply self p = Raises e p1.
Proof.
  unfold SetStateFromBackendOptionsTransformationDashToUnderscore.apply.
  destruct (SetStateFromBackendOptionsTransformation.apply self p) as [p0|e0 p0|] eqn:Hrun.
  - apply apply_returns_inv in Hrun. destruct Hrun as [s [_ ->]].
    simpl state. rewrite dict_get_set_same. split; intros H; discriminate H.
  - reflexivity.
  - reflexivity.
Qed.

Lemma replace_absent old new s : str_mem old s = false -> replace old new s = s.
Proof.
  induction s as [|c s IH]; simpl; intros H; [reflexivity|].
  apply orb_false_iff in H. destruct H as [Hc Hs]. now rewrite Hc, (IH Hs).
Qed.

Lemma replace_removes old new s :
  Ascii.eqb new old = false -> str_mem old (replace old new s) = false.
Proof.
  intros Hne. induction s as [|c s IH]; simpl; [reflexivity|].
  rewrite IH, orb_false_r. destruct (Ascii.eqb c old) eqn:E; [exact Hne | exact E].
Qed.

Lemma dict_keys_set d k v :
  dict_keys (dict_set d k v)
  = if key_in (dict_keys d) k then dict_keys d else (dict_keys d ++ [k])%list.
Proof.
  unfold key_in. induction d as [|[k0 v0] d IH]; simpl; [reflexivity|].
  rewrite (String.eqb_sym k k0).
  destruct (String.eqb k0 k) eqn:E; simpl; [reflexivity|].
  rewrite IH. now destruct (existsb (String.eqb k) (dict_keys d)).
Qed.

(** X5: when the plain variant returns, the state holds the substituted
    string under the key and every other key as before; the key keeps its
    place among the state's keys or, when it is new, comes last; the
    options are not touched. *)
Theorem apply_writes_only_its_key :
  forall (self : Transformation) (pipeline pipeline' : ProcessingPipeline),
    SetStateFromBackendOptionsTransformation.apply self pipeline = Returns pipeline' ->
    (exists s,
        format_map (template self) (dict_merge (default_values self) (vars pipeline)) = Ok s
        /\ dict_get (state pipeline') (key self) = Some s)
    /\ (forall k, k <> key self ->
          dict_get (state pipeline') k = dict_get (state pipeline) k)
    /\ dict_keys (state pipeline')
       = (if key_in (dict_keys (state pipeline)) (key self)
          then dict_keys (state pipeline)
          else dict_keys (state pipeline) ++ [key self])%list
    /\ vars pipeline' = vars pipeline
    /\ items pipeline' = items pipeline.
Proof.
  intros self pipeline pipeline' H.
  apply apply_returns_inv in H. destruct H as [s [Hs ->]]. simpl.
  split; [exists s; split; [exact Hs | apply dict_get_set_same]|].
  split; [intros k Hk; apply dict_get_set_other; congruence|].
  split; [apply dict_keys_set|]. split; reflexivity.
Qed.

Lemma apply_writes_only_its_key_witness :
  let self := {| key := "table_name"; template := "t_{r}";
                 default_values := [] |} in
  let pipeline :=
    {| name := "p"; allowed_backends := ["athena"]; priority := 20; items := [];
       vars := [("r", "eu-west-1")]; state := [("seen", "yes")] |} in
  let pipeline' := with_state pipeline [("seen", "yes"); ("table_name", "t_eu-west-1")] in
  dict_get (state pipeline') "seen" = Some "yes"
  /\ dict_keys (state pipeline') = ["seen"; "table_name"].
Proof.
  intros self pipeline pipeline'.
  destruct (apply_writes_only_its_key self pipeline pipeline' eq_refl)
    as [_ [Hother [Hkeys _]]].
  split; [|exact Hkeys].
  rewrite (Hother "seen"); [reflexivity | discriminate].
Defined.

(** X6: the dash variant fails exactly when the plain variant fails, with
    the same exception and the same untouched pipeline; the read of
    [pipeline.state[self.key]] after the parent's call never raises. *)
Theorem dash_apply_raises_as_plain :
  forall (self : Transformation) (pipeline : ProcessingPipeline),
    (forall e pipeline',
        SetStateFromBackendOptionsTransformationDashToUnderscore.apply self pipeline
        = Raises e pipeline'
        <-> SetStateFromBackendOptionsTransformation.apply self pipeline
            = Raises e pipeline')
    /\ ((exists pipeline',
            SetStateFromBackendOptionsTransformationDashToUnderscore.apply self pipeline
            = Returns pipeline')
        <-> (exists pipeline',
                SetStateFromBackendOptionsTransformation.apply self pipeline
                = Returns pipeline')).
Proof.
  intros self pipeline. split.
  - intros e pipeline'. apply dash_raises_iff_plain_raises.
  - split.
    + intros [p' H]. apply dash_apply_returns_inv in H. destruct H as [s [Hs _]].
      eexists. exact (apply_ok _ _ _ Hs).
    + intros [p' H]. apply apply_returns_inv in H. destruct H as [s [Hs _]].
      eexists. exact (dash_apply_ok _ _ _ Hs).
Qed.

(** X7: whatever the template and the options are, the value the dash
    variant leaves under the key has no [-] in it. *)
Theorem dash_apply_leaves_no_dash :
  forall (self : Transformation) (pipeline pipeline' : ProcessingPipeline),
    SetStateFromBackendOptionsTransformationDashToUnderscore.apply self pipeline
    = Returns pipeline' ->
    exists v,
      dict_get (state pipeline') (key self) = Some v /\ str_mem "-" v = false.
Proof.
  intros self pipeline pipeline' H.
  apply dash_apply_returns_inv in H. destruct H as [s [_ ->]].
  exists (replace "-" "_" s). simpl state.
  split; [apply dict_get_set_same | now apply replace_removes].
Qed.

Lemma dash_apply_leaves_no_dash_witness :
  let self := {| key := "table_name"; template := "a-b_{r}";
                 default_values := [] |} in
  let pipeline :=
    {| name := "p"; allowed_backends := ["athena"]; priority := 20; items := [];
       vars := [("r", "eu-west-1")]; state := [] |} in
  exists v,
    dict_get [("table_name", "a_b_eu_west_1")] "table_name" = Some v
    /\ str_mem "-" v = false.
Proof.
  intros self pipeline.
  exact (dash_apply_leaves_no_dash self pipeline
           (with_state pipeline [("table_name", "a_b_eu_west_1")]) eq_refl).
Defined.

(** X8: when the substituted string has no [-], the dash variant leaves
    exactly the pipeline the plain variant leaves. *)
Theorem dash_apply_without_dash_is_plain :
  forall (self : Transformation) (pipeline pipeline1 : ProcessingPipeline) (v : string),
    SetStateFromBackendOptionsTransformation.apply self pipeline = Returns pipeline1 ->
    dict_get (state pipeline1) (key self) = Some v ->
    str_mem "-" v = false ->
    SetStateFromBackendOptionsTransformationDashToUnderscore.apply self pipeline
    = Returns pipeline1.
Proof.
  intros self pipeline pipeline1 v H Hget Hv.
  apply apply_returns_inv in H. destruct H as [s [Hs ->]].
  simpl state in Hget. rewrite dict_get_set_same in Hget. inversion Hget; subst v.
  rewrite (dash_apply_ok _ _ _ Hs). now rewrite (replace_absent _ _ _ Hv).
Qed.

Lemma dash_apply_without_dash_is_plain_witness :
  let self := {| key := "table_name"; template := "t_{r}_{v}";
                 default_values := [("v", "2_0")] |} in
  let pipeline :=
    {| name := "p"; allowed_backends := ["athena"]; priority := 20; items := [];
       vars := [("r", "eu_west_1")]; state := [] |} in
  SetStateFromBackendOptionsTransformationDashToUnderscore.apply self pipeline
  = Returns (with_state pipeline [("table_name", "t_eu_west_1_2_0")]).
Proof.
  intros self pipeline.
  exact (dash_apply_without_dash_is_plain self pipeline
           (with_state pipeline [("table_name", "t_eu_west_1_2_0")]) "t_eu_west_1_2_0"
           eq_refl eq_refl eq_refl).
Defined.

(** X9: only the options that the template names matter: two pipelines
    whose options agree on every placeholder of a written template get the
    same value under the key, from either variant. *)
Theorem apply_ignores_unnamed_options :
  forall (self : Transformation) (pipeline1 pipeline2 : ProcessingPipeline)
         (pieces : list piece),
    template self = write_template pieces ->
    Forall (fun k => placeholder_name k = true) (placeholders pieces) ->
    wf_dict (default_values self) ->
    wf_dict (vars pipeline1) ->
    wf_dict (vars pipeline2) ->
    (forall k, In k (placeholders pieces) ->
       dict_get (vars pipeline1) k = dict_get (vars pipeline2) k) ->
    (forall pipeline1',
        SetStateFromBackendOptionsTransformation.apply self pipeline1 = Returns pipeline1' ->
        exists pipeline2',
          SetStateFromBackendOptionsTransformation.apply self pipeline2 = Returns pipeline2'
          /\ dict_get (state pipeline2') (key self) = dict_get (state pipeline1') (key self))
    /\ (forall pipeline1',
           SetStateFromBackendOptionsTransformationDashToUnderscore.apply self pipeline1
           = Returns pipeline1' ->
           exists pipeline2',
             SetStateFromBackendOptionsTransformationDashToUnderscore.apply self pipeline2
             = Returns pipeline2'
             /\ dict_get (state pipeline2') (key self)
                = dict_get (state pipeline1') (key self)).
Proof.
  intros self p1 p2 pieces Htpl Hnames Hd H1 H2 Hagree.
  assert (Hsame : format_map (template self) (dict_merge (default_values self) (vars p1))
                  = format_map (template self) (dict_merge (default_values self) (vars p2))).
  { rewrite Htpl, !(format_map_write_template _ _ Hnames).
    apply substitute_ext. intros k Hin.
    rewrite !dict_merge_get by assumption. now rewrite (Hagree k Hin). }
  split.
  - intros p1' H. apply apply_returns_inv in H. destruct H as [s [Hs ->]].
    rewrite Hsame in Hs. eexists. split; [exact (apply_ok _ _ _ Hs)|].
    simpl state. now rewrite !dict_get_set_same.
  - intros p1' H. apply dash_apply_returns_inv in H. destruct H as [s [Hs ->]].
    rewrite Hsame in Hs. eexists. split; [exact (dash_apply_ok _ _ _ Hs)|].
    simpl state. now rewrite !dict_get_set_same.
Qed.

Lemma apply_ignores_unnamed_options_witness :
  let self := {| key := "table_name"; template := "t_{r}";
                 default_values := [("v", "2_0")] |} in
  let pipeline1 :=
    {| name := "p"; allowed_backends := ["athena"]; priority := 20; items := [];
       vars := [("r", "eu-west-1")]; state := [] |} in
  let pipeline2 :=
    {| name := "q"; allowed_backends := ["athena"]; priority := 20; items := [];
       vars := [("other", "x"); ("r", "eu-west-1")]; state := [("seen", "yes")] |} in
  exists pipeline2',
    SetStateFromBackendOptionsTransformation.apply self pipeline2 = Returns pipeline2'
    /\ dict_get (state pipeline2') "table_name" = Some "t_eu-west-1".
Proof.
  intros self pipeline1 pipeline2.
  assert (Hnames : Forall (fun k => placeholder_name k = true)
                     (placeholders [Literal "t_"; Placeholder "r"]))
    by (repeat constructor).
  assert (Hd : wf_dict (default_values self)) by (repeat constructor; simpl; tauto).
  assert (H1 : wf_dict (vars pipeline1)) by (repeat constructor; simpl; tauto).
  assert (H2 : wf_dict (vars pipeline2)).
  { repeat constructor; simpl; try tauto. intros [H|[]]; discriminate H. }
  assert (Hagree : forall k, In k (placeholders [Literal "t_"; Placeholder "r"]) ->
                     dict_get (vars pipeline1) k = dict_get (vars pipeline2) k).
  { intros k [<-|[]]. reflexivity. }
  destruct (proj1 (apply_ignores_unnamed_options self pipeline1 pipeline2
                     [Literal "t_"; Placeholder "r"] eq_refl Hnames Hd H1 H2 Hagree)
              (with_state pipeline1 [("table_name", "t_eu-west-1")]) eq_refl)
    as [p2' [Hrun Hget]].
  exists p2'. split; [exact Hrun | exact Hget].
Defined.

Lemma dash_apply_raises_as_plain_witness :
  let self := {| key := "table_name"; template := "t_{r}"; default_values := [] |} in
  let pipeline :=
    {| name := "p"; allowed_backends := ["athena"]; priority := 20; items := [];
       vars := []; state := [] |} in
  SetStateFromBackendOptionsTransformationDashToUnderscore.apply self pipeline
  = Raises (KeyError (missing_key_message "r" "table_name" [])) pipeline.
Proof.
  intros self pipeline.
  exact (proj2 (proj1 (dash_apply_raises_as_plain self pipeline) _ _) eq_refl).
Defined.

(** ** The merged mapping and its keys *)

Lemma key_in_In keys k : key_in keys k = true <-> In k keys.
Proof.
  unfold key_in. rewrite existsb_exists. split.
  - intros [x [Hin Heq]]. apply String.eqb_eq in Heq. now subst.
  - intros Hin. exists k. split; [exact Hin | apply String.eqb_refl].
Qed.

Lemma key_in_not_In keys k : key_in keys k = false <-> ~ In k keys.
Proof.
  rewrite <- key_in_In. destruct (key_in keys k); split; intros H; congruence.
Qed.

Lemma wf_dict_set d k v : wf_dict d -> wf_dict (dict_set d k v).
Proof.
  unfold wf_dict. intros H. rewrite dict_keys_set.
  destruct (key_in (dict_keys d) k) eqn:E; [exact H|].
  apply key_in_not_In in E.
  apply NoDup_app; [exact H | repeat constructor; simpl; tauto |].
  intros x Hx [<-|[]]. contradiction.
Qed.

Lemma wf_dict_update d new_items : wf_dict d -> wf_dict (dict_update d new_items).
Proof.
  unfold dict_update. revert d.
  induction new_items as [|[k v] new_items IH]; intros d H; simpl; [exact H|].
  apply IH. now apply wf_dict_set.
Qed.

Lemma filter_absent_ext (keys : list string) k (l : list string) :
  ~ In k l ->
  filter (fun x => negb (key_in (keys ++ [k]) x)) l
  = filter (fun x => negb (key_in keys x)) l.
Proof.
  intros Hk. apply filter_ext_in. intros x Hx.
  unfold key_in. rewrite existsb_app. simpl. rewrite orb_false_r.
  destruct (String.eqb x k) eqn:E; [|now rewrite orb_false_r].
  apply String.eqb_eq in E; subst x. contradiction.
Qed.

Lemma dict_keys_update d new_items :
  wf_dict new_items ->
  dict_keys (dict_update d new_items)
  = (dict_keys d
     ++ filter (fun k => negb (key_in (dict_keys d) k)) (dict_keys new_items))%list.
Proof.
  unfold wf_dict, dict_update. revert d.
  induction new_items as [|[k v] new_items IH]; intros d Hwf; simpl.
  - now rewrite app_nil_r.
  - inversion Hwf as [|? ? Hnotin Hwf']; subst.
    rewrite (IH _ Hwf'), dict_keys_set.
    destruct (key_in (dict_keys d) k) eqn:E; simpl; [reflexivity|].
    rewrite (filter_absent_ext _ _ _ Hnotin), <- app_assoc. reflexivity.
Qed.

(** X10: the merged mapping, whose keys the error message lists as the
    available keys, never repeats a key; for defaults and options that are
    dicts, its keys are the default keys in their order, followed by the
    option keys that are not default keys, in their order. *)
Theorem merged_keys_defaults_then_new_options :
  forall (defaults options : dict),
    NoDup (dict_keys (dict_merge defaults options))
    /\ (wf_dict defaults -> wf_dict options ->
        dict_keys (dict_merge defaults options)
        = (dict_keys defaults
           ++ filter (fun k => negb (key_in (dict_keys defaults) k))
                (dict_keys options))%list).
Proof.
  intros defaults options. split.
  - apply wf_dict_update, wf_dict_update. constructor.
  - intros Hd Ho. unfold dict_merge.
    rewrite (dict_keys_update _ _ Ho), (dict_keys_update _ _ Hd). simpl.
    f_equal.
    + clear. induction (dict_keys defaults) as [|k l IH]; simpl; [reflexivity|].
      now rewrite IH.
    + apply filter_ext. intros k. f_equal. f_equal.
      clear. induction (dict_keys defaults) as [|k0 l IH]; simpl; [reflexivity|].
      now rewrite IH.
Qed.

Lemma merged_keys_defaults_then_new_options_witness :
  dict_keys (dict_merge [("v", "2_0"); ("r", "none")] [("x", "1"); ("r", "eu"); ("y", "2")])
  = ["v"; "r"; "x"; "y"].
Proof.
  refine (proj2 (merged_keys_defaults_then_new_options
                   [("v", "2_0"); ("r", "none")] [("x", "1"); ("r", "eu"); ("y", "2")]) _ _).
  - repeat constructor; simpl; try tauto. intros [H|[]]; discriminate H.
  - repeat constructor; simpl; try tauto;
      intros H; repeat (destruct H as [H|H]; try discriminate H); exact H.
Defined.

(** ** Applying one transformation after another *)

Lemma dict_get_set_set_comm d k1 v1 k2 v2 k :
  k1 <> k2 ->
  dict_get (dict_set (dict_set d k1 v1) k2 v2) k
  = dict_get (dict_set (dict_set d k2 v2) k1 v1) k.
Proof.
  intros Hne.
  destruct (string_dec k2 k) as [->|H2].
  - rewrite dict_get_set_same, (dict_get_set_other _ k1 _ k Hne). now rewrite dict_get_set_same.
  - rewrite (dict_get_set_other _ k2 _ k H2).
    destruct (string_dec k1 k) as [->|H1].
    + now rewrite !dict_get_set_same.
    + now rewrite !(dict_get_set_other _ k1 _ k H1), (dict_get_set_other _ k2 _ k H2).
Qed.

(** X11: a transformation reads the options and never the state, so the
    one applied last decides the key: applied after another transformation
    that writes the same key, it leaves exactly the pipeline it leaves when
    applied alone.  This holds for each variant. *)
Theorem apply_same_key_last_wins :
  forall (t1 t2 : Transformation) (pipeline pipeline1 pipeline2 : ProcessingPipeline),
    key t1 = key t2 ->
    (SetStateFromBackendOptionsTransformation.apply t1 pipeline = Returns pipeline1 ->
     SetStateFromBackendOptionsTransformation.apply t2 pipeline = Returns pipeline2 ->
     SetStateFromBackendOptionsTransformation.apply t2 pipeline1 = Returns pipeline2)
    /\ (SetStateFromBackendOptionsTransformationDashToUnderscore.apply t1 pipeline
        = Returns pipeline1 ->
        SetStateFromBackendOptionsTransformationDashToUnderscore.apply t2 pipeline
        = Returns pipeline2 ->
        SetStateFromBackendOptionsTransformationDashToUnderscore.apply t2 pipeline1
        = Returns pipeline2).
Proof.
  intros t1 t2 p p1 p2 Hkey. split; intros H1 H2.
  - apply apply_returns_inv in H1, H2.
    destruct H1 as [s1 [_ ->]], H2 as [s2 [Hs2 ->]].
    rewrite (apply_ok t2 (with_state p _) s2 Hs2). simpl state.
    now rewrite with_state_with_state, Hkey, dict_set_set.
  - apply dash_apply_returns_inv in H1, H2.
    destruct H1 as [s1 [_ ->]], H2 as [s2 [Hs2 ->]].
    rewrite (dash_apply_ok t2 (with_state p _) s2 Hs2). simpl state.
    now rewrite with_state_with_state, Hkey, dict_set_set.
Qed.

Lemma apply_same_key_last_wins_witness :
  let t1 := {| key := "table_name"; template := "a_{r}"; default_values := [] |} in
  let t2 := {| key := "table_name"; template := "b_{r}"; default_values := [] |} in
  let pipeline :=
    {| name := "p"; allowed_backends := ["athena"]; priority := 20; items := [];
       vars := [("r", "eu-west-1")]; state := [] |} in
  SetStateFromBackendOptionsTransformationDashToUnderscore.apply t2
    (with_state pipeline [("table_name", "a_eu_west_1")])
  = Returns (with_state pipeline [("table_name", "b_eu_west_1")]).
Proof.
  intros t1 t2 pipeline.
  exact (proj2 (apply_same_key_last_wins t1 t2 pipeline
                  (with_state pipeline [("table_name", "a_eu_west_1")])
                  (with_state pipeline [("table_name", "b_eu_west_1")]) eq_refl)
           eq_refl eq_refl).
Defined.

(** X12: two transformations that write different keys do not disturb
    each other: if each returns on a pipeline, then applied one after the
    other, in either order, both return, and the two final states hold the
    same value under every key.  This holds for each variant. *)
Theorem apply_different_keys_commute :
  forall (t1 t2 : Transformation) (pipeline pipeline1 pipeline2 : ProcessingPipeline),
    key t1 <> key t2 ->
    (SetStateFromBackendOptionsTransformation.apply t1 pipeline = Returns pipeline1 ->
     SetStateFromBackendOptionsTransformation.apply t2 pipeline = Returns pipeline2 ->
     exists pipeline12 pipeline21,
       SetStateFromBackendOptionsTransformation.apply t2 pipeline1 = Returns pipeline12
       /\ SetStateFromBackendOptionsTransformation.apply t1 pipeline2 = Returns pipeline21
       /\ (forall k, dict_get (state pipeline12) k = dict_get (state pipeline21) k)
       /\ dict_get (state pipeline12) (key t1) = dict_get (state pipeline1) (key t1)
       /\ dict_get (state pipeline12) (key t2) = dict_get (state pipeline2) (key t2))
    /\ (SetStateFromBackendOptionsTransformationDashToUnderscore.apply t1 pipeline
        = Returns pipeline1 ->
        SetStateFromBackendOptionsTransformationDashToUnderscore.apply t2 pipeline
        = Returns pipeline2 ->
        exists pipeline12 pipeline21,
          SetStateFromBackendOptionsTransformationDashToUnderscore.apply t2 pipeline1
          = Returns pipeline12
          /\ SetStateFromBackendOptionsTransformationDashToUnderscore.apply t1 pipeline2
             = Returns pipeline21
          /\ (forall k, dict_get (state pipeline12) k = dict_get (state pipeline21) k)
          /\ dict_get (state pipeline12) (key t1) = dict_get (state pipeline1) (key t1)
          /\ dict_get (state pipeline12) (key t2) = dict_get (state pipeline2) (key t2)).
Proof.
  intros t1 t2 p p1 p2 Hkey. split; intros H1 H2.
  - apply apply_returns_inv in H1, H2.
    destruct H1 as [s1 [Hs1 ->]], H2 as [s2 [Hs2 ->]].
    do 2 eexists.
    split; [exact (apply_ok t2 (with_state p _) s2 Hs2)|].
    split; [exact (apply_ok t1 (with_state p _) s1 Hs1)|].
    simpl state. split; [intros k; now apply dict_get_set_set_comm|].
    split.
    + rewrite (dict_get_set_other _ (key t2) _ (key t1)) by congruence. reflexivity.
    + now rewrite !dict_get_set_same.
  - apply dash_apply_returns_inv in H1, H2.
    destruct H1 as [s1 [Hs1 ->]], H2 as [s2 [Hs2 ->]].
    do 2 eexists.
    split; [exact (dash_apply_ok t2 (with_state p _) s2 Hs2)|].
    split; [exact (dash_apply_ok t1 (with_state p _) s1 Hs1)|].
    simpl state. split; [intros k; now apply dict_get_set_set_comm|].
    split.
    + rewrite (dict_get_set_other _ (key t2) _ (key t1)) by congruence. reflexivity.
    + now rewrite !dict_get_set_same.
Qed.

Lemma apply_different_keys_commute_witness :
  let t1 := {| key := "table_name"; template := "a_{r}"; default_values := [] |} in
  let t2 := {| key := "database"; template := "db_{r}"; default_values := [] |} in
  let pipeline :=
    {| name := "p"; allowed_backends := ["athena"]; priority := 20; items := [];
       vars := [("r", "eu")]; state := [] |} in
  exists pipeline12 pipeline21,
    SetStateFromBackendOptionsTransformation.apply t2
      (with_state pipeline [("table_name", "a_eu")]) = Returns pipeline12
    /\ SetStateFromBackendOptionsTransformation.apply t1
         (with_state pipeline [("database", "db_eu")]) = Returns pipeline21
    /\ dict_get (state pipeline12) "table_name" = dict_get (state pipeline21) "table_name".
Proof.
  intros t1 t2 pipeline.
  assert (Hkey : key t1 <> key t2) by discriminate.
  destruct (proj1 (apply_different_keys_commute t1 t2 pipeline
                     (with_state pipeline [("table_name", "a_eu")])
                     (with_state pipeline [("database", "db_eu")]) Hkey)
              eq_refl eq_refl)
    as [p12 [p21 [H12 [H21 [Hsame _]]]]].
  exists p12, p21. split; [exact H12|]. split; [exact H21 | apply Hsame].
Defined.

(** ** The table names of the security-lake pipeline *)

Lemma append_length (a b : string) :
  String.length (a ++ b) = String.length a + String.length b.
Proof. induction a as [|c a IH]; simpl; [reflexivity | now rewrite IH]. Qed.

Lemma append_inv_head (a x y : string) : a ++ x = a ++ y -> x = y.
Proof.
  induction a as [|c a IH]; simpl; intros H; [exact H|].
  injection H as H. exact (IH H).
Qed.

Lemma append_inv_tail (x y c : string) : x ++ c = y ++ c -> x = y.
Proof.
  revert y; induction x as [|a x IH]; intros [|b y] H.
  - reflexivity.
  - apply (f_equal String.length) in H. simpl in H. rewrite append_length in H. lia.
  - apply (f_equal String.length) in H. simpl in H. rewrite append_length in H. lia.
  - simpl in H. injection H as -> H. now rewrite (IH _ H).
Qed.

Lemma double_braces_free s : brace_free s = true -> double_braces s = s.
Proof.
  induction s as [|c s IH]; simpl; intros H; [reflexivity|].
  apply andb_prop in H; destruct H as [H Hs].
  apply andb_prop in H; destruct H as [Ho Hc].
  apply negb_true_iff in Ho, Hc. now rewrite Ho, Hc, (IH Hs).
Qed.

Lemma table_items_infix it :
  In it (items athena_pipeline_security_lake_table_name) ->
  exists b,
    brace_free b = true /\ str_mem "-" b = false
    /\ transformation it
       = {| key := "table_name";
            template := "amazon_security_lake_table_" ++ "{" ++ region_key ++ "}"
                        ++ b ++ "{" ++ version_key ++ "}";
            default_values := [(version_key, "2_0")] |}.
Proof.
  simpl.
  intros [<-|[<-|[<-|[<-|[<-|[<-|[<-|[<-|[]]]]]]]]]; simpl;
    [ exists "_cloud_trail_mgmt_" | exists "_s3_data_" | exists "_lambda_execution_"
    | exists "_route53_" | exists "_sh_findings_" | exists "_vpc_flow_"
    | exists "_waf_" | exists "_eks_audit_" ];
    repeat split; reflexivity.
Qed.

Lemma table_items_template_inj it1 it2 :
  In it1 (items athena_pipeline_security_lake_table_name) ->
  In it2 (items athena_pipeline_security_lake_table_name) ->
  template (transformation it1) = template (transformation it2) ->
  it1 = it2.
Proof.
  simpl.
  intros [<-|[<-|[<-|[<-|[<-|[<-|[<-|[<-|[]]]]]]]]]
         [<-|[<-|[<-|[<-|[<-|[<-|[<-|[<-|[]]]]]]]]] H;
    try reflexivity;
    apply (proj2 (String.eqb_eq _ _)) in H; vm_compute in H; discriminate H.
Qed.

(** What a table template gives: the prefix, the region, the infix of the
    log source and the version, when both have an entry. *)
Lemma table_template_format values b s :
  brace_free b = true ->
  format_map ("amazon_security_lake_table_" ++ "{" ++ region_key ++ "}"
              ++ b ++ "{" ++ version_key ++ "}") values = Ok s ->
  exists r v,
    dict_get values region_key = Some r
    /\ dict_get values version_key = Some v
    /\ s = "amazon_security_lake_table_" ++ r ++ b ++ v.
Proof.
  intros Hb H.
  assert (Htpl : "amazon_security_lake_table_" ++ "{" ++ region_key ++ "}"
                 ++ b ++ "{" ++ version_key ++ "}"
                 = write_template [Literal "amazon_security_lake_table_";
                                   Placeholder region_key; Literal b;
                                   Placeholder version_key]).
  { simpl. now rewrite (double_braces_free _ Hb). }
  rewrite Htpl, format_map_write_template in H by (repeat constructor).
  simpl in H.
  destruct (dict_get values region_key) as [r|]; [|discriminate H].
  destruct (dict_get values version_key) as [v|]; [|discriminate H].
  exists r, v. split; [reflexivity|]. split; [reflexivity|].
  simpl in H. inversion H. now rewrite append_empty_r.
Qed.

(** X13: for every item of the security-lake pipeline and every options
    dict that holds a region, the item writes under [table_name] the
    prefix [amazon_security_lake_table_], the region, the infix of its log
    source and the version, with every [-] turned into [_]; the version is
    the option [backend_aws_table_version] when the options hold one, and
    ["2_0"] otherwise; options of other names change nothing. *)
Theorem table_name_from_region_and_version :
  forall (it : ProcessingItem) (pipeline : ProcessingPipeline) (region : string),
    In it (items athena_pipeline_security_lake_table_name) ->
    wf_dict (vars pipeline) ->
    dict_get (vars pipeline) "backend_aws_table_region" = Some region ->
    exists infix,
      template (transformation it)
      = "amazon_security_lake_table_{backend_aws_table_region}" ++ infix
        ++ "{backend_aws_table_version}"
      /\ SetStateFromBackendOptionsTransformationDashToUnderscore.apply
           (transformation it) pipeline
         = Returns
             (with_state pipeline
                (dict_set (state pipeline) "table_name"
                   ("amazon_security_lake_table_"
                    ++ replace "-" "_" region ++ infix
                    ++ replace "-" "_"
                         match dict_get (vars pipeline) "backend_aws_table_version" with
                         | Some version => version
                         | None => "2_0"
                         end))).
Proof.
  intros it pipeline region Hin Hwf Hregion.
  destruct (table_items_infix it Hin) as [b [Hb [Hdash Hshape]]].
  exists b. rewrite Hshape. cbn [template]. split; [reflexivity|].
  assert (Hd : wf_dict [(version_key, "2_0")]) by (repeat constructor; simpl; tauto).
  set (version := match dict_get (vars pipeline) "backend_aws_table_version" with
                  | Some version => version
                  | None => "2_0"
                  end).
  assert (Hfmt : format_map
                   ("amazon_security_lake_table_" ++ "{" ++ region_key ++ "}"
                    ++ b ++ "{" ++ version_key ++ "}")
                   (dict_merge [(version_key, "2_0")] (vars pipeline))
                 = Ok ("amazon_security_lake_table_" ++ region ++ b ++ version)).
  { apply format_map_two_placeholders; try reflexivity; try exact Hb.
    - rewrite (dict_merge_get _ _ _ Hd Hwf). unfold region_key. now rewrite Hregion.
    - rewrite (dict_merge_get _ _ _ Hd Hwf). unfold version, version_key.
      now destruct (dict_get (vars pipeline) "backend_aws_table_version"). }
  rewrite (dash_apply_ok
             {| key := "table_name";
                template := "amazon_security_lake_table_" ++ "{" ++ region_key ++ "}"
                            ++ b ++ "{" ++ version_key ++ "}";
                default_values := [(version_key, "2_0")] |} pipeline _ Hfmt).
  cbn [key]. do 3 f_equal.
  change ("amazon_security_lake_table_" ++ region ++ b ++ version)
    with ("amazon_security_lake_table_" ++ (region ++ b ++ version)).
  rewrite (replace_app "-" "_" "amazon_security_lake_table_").
  rewrite !replace_app, (replace_absent _ _ _ Hdash). reflexivity.
Qed.

Lemma table_name_from_region_and_version_witness :
  let it :=
    {| identifier := "table_amazon_security_lake_table_{backend_aws_table_region}_route53_{backend_aws_table_version}";
       transformation :=
         {| key := "table_name";
            template := "amazon_security_lake_table_{backend_aws_table_region}_route53_{backend_aws_table_version}";
            default_values := [("backend_aws_table_version", "2_0")] |};
       rule_conditions := [{| product := "aws"; service := "route53" |}] |} in
  let pipeline :=
    {| name := "p"; allowed_backends := ["athena"]; priority := 20; items := [];
       vars := [("backend_aws_table_version", "1-0"); ("backend_output", "json");
                ("backend_aws_table_region", "eu-west-1")];
       state := [] |} in
  exists infix,
    template (transformation it)
    = "amazon_security_lake_table_{backend_aws_table_region}" ++ infix
      ++ "{backend_aws_table_version}"
    /\ SetStateFromBackendOptionsTransformationDashToUnderscore.apply
         (transformation it) pipeline
       = Returns
           (with_state pipeline
              [("table_name", "amazon_security_lake_table_eu_west_1" ++ infix ++ "1_0")]).
Proof.
  intros it pipeline.
  assert (Hin : In it (items athena_pipeline_security_lake_table_name))
    by (simpl; tauto).
  assert (Hwf : wf_dict (vars pipeline)).
  { repeat constructor; simpl; try tauto;
      intros H; repeat (destruct H as [H|H]; try discriminate H); exact H. }
  destruct (table_name_from_region_and_version it pipeline "eu-west-1" Hin Hwf eq_refl)
    as [infix [Htpl Hrun]].
  exists infix. split; [exact Htpl | exact Hrun].
Defined.

(** X14: under the same options no two items of the security-lake
    pipeline write the same table name: items that leave equal values
    under [table_name] are the same item. *)
Theorem table_names_distinct :
  forall (it1 it2 : ProcessingItem) (pipeline pipeline1 pipeline2 : ProcessingPipeline),
    In it1 (items athena_pipeline_security_lake_table_name) ->
    In it2 (items athena_pipeline_security_lake_table_name) ->
    SetStateFromBackendOptionsTransformationDashToUnderscore.apply
      (transformation it1) pipeline = Returns pipeline1 ->
    SetStateFromBackendOptionsTransformationDashToUnderscore.apply
      (transformation it2) pipeline = Returns pipeline2 ->
    dict_get (state pipeline1) "table_name" = dict_get (state pipeline2) "table_name" ->
    it1 = it2.
Proof.
  intros it1 it2 p p1 p2 Hin1 Hin2 H1 H2 Hsame.
  destruct (table_items_infix it1 Hin1) as [b1 [Hb1 [Hd1 Hshape1]]].
  destruct (table_items_infix it2 Hin2) as [b2 [Hb2 [Hd2 Hshape2]]].
  apply (table_items_template_inj it1 it2 Hin1 Hin2).
  rewrite Hshape1, Hshape2 in *. cbn [template].
  apply dash_apply_returns_inv in H1, H2.
  cbn [template key default_values] in H1, H2.
  destruct H1 as [s1 [Hs1 ->]], H2 as [s2 [Hs2 ->]].
  simpl state in Hsame. rewrite !dict_get_set_same in Hsame.
  destruct (table_template_format _ _ _ Hb1 Hs1) as [r1 [v1 [Hr1 [Hv1 ->]]]].
  destruct (table_template_format _ _ _ Hb2 Hs2) as [r2 [v2 [Hr2 [Hv2 ->]]]].
  rewrite Hr1 in Hr2. rewrite Hv1 in Hv2. inversion Hr2; inversion Hv2; subst r2 v2.
  injection Hsame as Hsame.
  rewrite !replace_app in Hsame.
  apply append_inv_head in Hsame. apply append_inv_tail in Hsame.
  rewrite (replace_absent _ _ _ Hd1), (replace_absent _ _ _ Hd2) in Hsame.
  now rewrite Hsame.
Qed.

Lemma table_names_distinct_witness :
  let it :=
    {| identifier := "table_amazon_security_lake_table_{backend_aws_table_region}_waf_{backend_aws_table_version}";
       transformation :=
         {| key := "table_name";
            template := "amazon_security_lake_table_{backend_aws_table_region}_waf_{backend_aws_table_version}";
            default_values := [("backend_aws_table_version", "2_0")] |};
       rule_conditions := [{| product := "aws"; service := "waf" |}] |} in
  let pipeline :=
    {| name := "p"; allowed_backends := ["athena"]; priority := 20; items := [];
       vars := [("backend_aws_table_region", "us-east-1")]; state := [] |} in
  let pipeline' :=
    with_state pipeline [("table_name", "amazon_security_lake_table_us_east_1_waf_2_0")] in
  In it (items athena_pipeline_security_lake_table_name)
  /\ SetStateFromBackendOptionsTransformationDashToUnderscore.apply (transformation it)
       pipeline = Returns pipeline'
  /\ it = it.
Proof.
  intros it pipeline pipeline'.
  assert (Hin : In it (items athena_pipeline_security_lake_table_name))
    by (simpl; tauto).
  split; [exact Hin|]. split; [reflexivity|].
  exact (table_names_distinct it it pipeline pipeline' pipeline' Hin Hin
           eq_refl eq_refl eq_refl).
Defined.

(** ** Templates without placeholders, and the text of the message *)

(** X15: a template of literal text only, its braces doubled, never
    fails and does not look at the options: the plain variant writes the
    text with single braces under the key, the dash variant the same text
    with every [-] turned into [_]. *)
Theorem apply_literal_template :
  forall (self : Transformation) (pipeline : ProcessingPipeline) (text : string),
    template self = double_braces text ->
    SetStateFromBackendOptionsTransformation.apply self pipeline
    = Returns (with_state pipeline (dict_set (state pipeline) (key self) text))
    /\ SetStateFromBackendOptionsTransformationDashToUnderscore.apply self pipeline
       = Returns (with_state pipeline
                    (dict_set (state pipeline) (key self) (replace "-" "_" text))).
Proof.
  intros self pipeline text Htpl.
  assert (Hfmt : format_map (template self)
                   (dict_merge (default_values self) (vars pipeline)) = Ok text).
  { rewrite Htpl. unfold format_map.
    rewrite <- (append_empty_r (double_braces text)), do_markup_literal.
    simpl. now rewrite append_empty_r. }
  split; [exact (apply_ok _ _ _ Hfmt) | exact (dash_apply_ok _ _ _ Hfmt)].
Qed.

Lemma apply_literal_template_witness :
  let self := {| key := "table_name"; template := "my-{{fixed}}-table";
                 default_values := [] |} in
  let pipeline :=
    {| name := "p"; allowed_backends := ["athena"]; priority := 20; items := [];
       vars := []; state := [] |} in
  SetStateFromBackendOptionsTransformation.apply self pipeline
  = Returns (with_state pipeline [("table_name", "my-{fixed}-table")])
  /\ SetStateFromBackendOptionsTransformationDashToUnderscore.apply self pipeline
     = Returns (with_state pipeline [("table_name", "my_{fixed}_table")]).
Proof.
  intros self pipeline.
  exact (apply_literal_template self pipeline "my-{fixed}-table" eq_refl).
Defined.

Lemma repr_body_ordinary k : ordinary_key k = true -> repr_body "'" k = k.
Proof.
  induction k as [|c k IH]; simpl; intros H; [reflexivity|].
  apply andb_prop in H; destruct H as [Hc Hk]. rewrite (IH Hk).
  revert Hc. destruct c as [[] [] [] [] [] [] [] []]; intros Hc;
    try discriminate Hc; reflexivity.
Qed.

Lemma ordinary_key_no_quote k : ordinary_key k = true -> str_mem "'" k = false.
Proof.
  induction k as [|c k IH]; simpl; intros H; [reflexivity|].
  apply andb_prop in H; destruct H as [Hc Hk]. rewrite (IH Hk), orb_false_r.
  unfold ordinary_char in Hc.
  apply andb_prop in Hc; destruct Hc as [Hc _].
  apply andb_prop in Hc; destruct Hc as [_ Hq].
  now apply negb_true_iff in Hq.
Qed.

Lemma repr_ordinary k : ordinary_key k = true -> repr k = "'" ++ k ++ "'".
Proof.
  intros H. unfold repr.
  rewrite (ordinary_key_no_quote _ H). simpl andb. cbv iota.
  now rewrite (repr_body_ordinary _ H).
Qed.

(** X16: when the available keys are ordinary (printable ASCII, no single
    quote, no backslash), the message of the missing-key error lists them
    between single quotes, separated by a comma and a space, inside square
    brackets, in the order of the merged mapping. *)
Theorem missing_key_message_lists_quoted_keys :
  forall (missing_key self_key : string) (values : dict),
    Forall (fun k => ordinary_key k = true) (dict_keys values) ->
    missing_key_message missing_key self_key values
    = "Missing key '" ++ missing_key ++ "' in template substitution for '" ++ self_key
      ++ "'. Available keys: ["
      ++ String.concat ", " (map (fun k => "'" ++ k ++ "'") (dict_keys values))
      ++ "]. You likely need to set the key '" ++ missing_key ++ "' via 'backend options'.".
Proof.
  intros missing_key self_key values H.
  unfold missing_key_message, repr_list.
  assert (Hmap : map repr (dict_keys values)
                 = map (fun k => "'" ++ k ++ "'") (dict_keys values)).
  { induction H as [|k l Hk Hl IH]; simpl; [reflexivity|].
    now rewrite (repr_ordinary _ Hk), IH. }
  rewrite Hmap. rewrite !append_assoc. reflexivity.
Qed.

Lemma missing_key_message_lists_quoted_keys_witness :
  missing_key_message "r" "table_name" [("backend_aws_table_version", "2_0"); ("x y", "1")]
  = "Missing key 'r' in template substitution for 'table_name'. Available keys: ['backend_aws_table_version', 'x y']. You likely need to set the key 'r' via 'backend options'.".
Proof.
  refine (missing_key_message_lists_quoted_keys "r" "table_name"
            [("backend_aws_table_version", "2_0"); ("x y", "1")] _).
  repeat constructor.
Defined.
(** ** The predicate core *)

Import athenaBackend.

(** The expected strings of [tests/test_backend_athena_mixed_modifiers.py]. *)
Example test_athena_cased_contains :
  convert athena_backend
    {| field := "fieldA"; modifier_stack := [cased; contains];
       values := ["SubString"]; negated := false |}
  = Sql ["SELECT * FROM <TABLE> WHERE fieldA LIKE '%SubString%' ESCAPE '\'"].
Proof. reflexivity. Qed.

Example test_athena_cased_startswith :
  convert athena_backend
    {| field := "fieldA"; modifier_stack := [cased; startswith];
       values := ["Prefix"]; negated := false |}
  = Sql ["SELECT * FROM <TABLE> WHERE fieldA LIKE 'Prefix%' ESCAPE '\'"].
Proof. reflexivity. Qed.

Example test_athena_cased_endswith :
  convert athena_backend
    {| field := "fieldA"; modifier_stack := [cased; endswith];
       values := ["Suffix"]; negated := false |}
  = Sql ["SELECT * FROM <TABLE> WHERE fieldA LIKE '%Suffix' ESCAPE '\'"].
Proof. reflexivity. Qed.

Example test_athena_cased_fieldref :
  convert athena_backend
    {| field := "fieldA"; modifier_stack := [cased; fieldref];
       values := ["fieldB"]; negated := false |}
  = Error (NotImplementedError "cased is not support with fieldref for this backend at present").
Proof. reflexivity. Qed.

Example test_athena_not_fieldref_case_insensitive :
  convert athena_backend
    {| field := "fieldA"; modifier_stack := [fieldref];
       values := ["fieldB"]; negated := true |}
  = Sql ["SELECT * FROM <TABLE> WHERE NOT LOWER(fieldA) = LOWER(fieldB)"].
Proof. reflexivity. Qed.

Example test_athena_element_at_contains :
  convert athena_backend
    {| field := "unmapped.serviceEventDetails.account_id"; modifier_stack := [contains];
       values := ["123"]; negated := false |}
  = Sql ["SELECT * FROM <TABLE> WHERE LOWER(element_at(unmapped, 'serviceEventDetails.account_id')) LIKE '%123%' ESCAPE '\'"].
Proof. reflexivity. Qed.

Example test_athena_element_at_cased_startswith :
  convert athena_backend
    {| field := "unmapped.serviceEventDetails.account_id";
       modifier_stack := [cased; startswith];
       values := ["AWS"]; negated := false |}
  = Sql ["SELECT * FROM <TABLE> WHERE element_at(unmapped, 'serviceEventDetails.account_id') LIKE 'AWS%' ESCAPE '\'"].
Proof. reflexivity. Qed.

Example test_athena_cased_regex_same_as_default :
  convert athena_backend
    {| field := "fieldA"; modifier_stack := [cased; re];
       values := ["Foo.*bar"]; negated := false |}
  = Error (SigmaValueError "Regular expression modifier only applicable to unmodified values").
Proof. reflexivity. Qed.

Example test_athena_contains_list_with_literal_star_and_question :
  convert athena_backend
    {| field := "fieldA"; modifier_stack := [contains];
       values := ["val*a"; "val?b"; "val_c"]; negated := false |}
  = Sql ["SELECT * FROM <TABLE> WHERE LOWER(fieldA) LIKE '%val%a%' ESCAPE '\' OR LOWER(fieldA) LIKE '%val_b%' ESCAPE '\' OR LOWER(fieldA) LIKE '%val\_c%' ESCAPE '\'"].
Proof. reflexivity. Qed.

Example test_athena_special_field_name_with_endswith :
  convert athena_backend
    {| field := "field name"; modifier_stack := [endswith];
       values := ["S"]; negated := false |}
  = Sql ["SELECT * FROM <TABLE> WHERE LOWER(" ++ String dquote "field name"
         ++ String dquote ") LIKE '%s' ESCAPE '\'"].
Proof. reflexivity. Qed.

Example test_athena_escaped_dot_with_contains :
  convert athena_backend
    {| field := "actor.user\.uid"; modifier_stack := [contains];
       values := ["123"]; negated := false |}
  = Sql ["SELECT * FROM <TABLE> WHERE LOWER(actor." ++ String dquote "user.uid"
         ++ String dquote ") LIKE '%123%' ESCAPE '\'"].
Proof. reflexivity. Qed.

(** *** Modifier resolution *)






(** *** The escaper *)

Lemma escape_like_cons c s :
  escape_like (String c s) = escape_like (String c "") ++ escape_like s.
Proof. simpl. now destruct (is_like_meta c). Qed.

Lemma lower_app a b : lower (a ++ b) = lower a ++ lower b.
Proof. induction a as [|c a IH]; simpl; [reflexivity | now rewrite IH]. Qed.

Lemma translate_wildcards_app a b :
  translate_wildcards (a ++ b) = translate_wildcards a ++ translate_wildcards b.
Proof. unfold translate_wildcards. now rewrite !replace_app. Qed.

(** The body is made character by character. *)
Lemma like_body_cons shape cs c s :
  like_body shape cs (String c s)
  = like_body shape cs (String c "") ++ like_body shape cs s.
Proof.
  unfold like_body. rewrite escape_like_cons.
  destruct (is_pattern shape), cs;
    rewrite ?translate_wildcards_app, ?lower_app; reflexivity.
Qed.

Lemma like_body_app shape cs a b :
  like_body shape cs (a ++ b) = like_body shape cs a ++ like_body shape cs b.
Proof.
  induction a as [|c a IH]; [now destruct shape, cs|].
  change (String c a ++ b) with (String c (a ++ b)).
  rewrite like_body_cons, IH, (like_body_cons shape cs c a). now rewrite append_assoc.
Qed.

Ltac each_ascii c := destruct c as [[] [] [] [] [] [] [] []].

(** What one source character becomes in the body of a pattern shape. *)
Lemma like_body_meta_char shape cs c :
  is_like_meta c = true ->
  like_body shape cs (String c "") = String "\" (String c "").
Proof.
  intros H. destruct shape, cs; revert H; each_ascii c; intros H;
    try discriminate H; reflexivity.
Qed.

Lemma like_tokens_char shape cs c tail :
  is_pattern shape = true ->
  like_tokens (like_body shape cs (String c "") ++ tail)
  = source_token cs c :: like_tokens tail.
Proof.
  intros Hp. destruct shape; try discriminate Hp; destruct cs; each_ascii c; reflexivity.
Qed.

Lemma like_tokens_body shape cs literal tail :
  is_pattern shape = true ->
  like_tokens (like_body shape cs literal ++ tail)
  = (source_tokens cs literal ++ like_tokens tail)%list.
Proof.
  intros Hp. induction literal as [|c s IH]; [now destruct shape, cs|].
  rewrite like_body_cons, append_assoc, (like_tokens_char _ _ _ _ Hp), IH. reflexivity.
Qed.




(** C4: in the pattern body of a LIKE predicate every [%], [_] and [\] of
    the source literal stands, at its place, behind one added backslash;
    read back with the backslash as escape character each of them is that
    literal character; and the predicate ends with [ESCAPE '\']. *)
Theorem like_metachars_escaped_once :
  forall (element_at_fields : list string) (shape : ComparisonShape)
         (case_sensitive : bool) (id literal : string),
    is_pattern shape = true ->
    (forall a c b,
        literal = a ++ String c b -> is_like_meta c = true ->
        like_body shape case_sensitive literal
        = like_body shape case_sensitive a
          ++ String "\" (String c (like_body shape case_sensitive b))
        /\ source_token case_sensitive c = LitChar c)
    /\ like_tokens (like_body shape case_sensitive literal)
       = source_tokens case_sensitive literal
    /\ exists cmp,
         sub_predicate element_at_fields shape case_sensitive id literal = Some cmp
         /\ operator cmp = "LIKE"
         /\ rhs cmp = "'" ++ like_pattern shape case_sensitive literal ++ "'" ++ " ESCAPE '\'"
         /\ render cmp
            = (lhs cmp ++ " LIKE '" ++ like_pattern shape case_sensitive literal ++ "'")
              ++ " ESCAPE '\'".
Proof.
  intros el shape cs id literal Hp. split; [|split].
  - intros a c b -> Hc. split.
    + rewrite like_body_app, like_body_cons, (like_body_meta_char _ _ _ Hc). reflexivity.
    + revert Hc. destruct cs; each_ascii c; intros Hc; try discriminate Hc; reflexivity.
  - pose proof (like_tokens_body shape cs literal "" Hp) as H.
    rewrite append_empty_r in H. rewrite H. simpl. now rewrite app_nil_r.
  - destruct shape; try discriminate Hp;
      (eexists; split; [reflexivity|]; split; [reflexivity|]; split;
       [unfold str_quote; cbn [rhs]; now rewrite !append_assoc|];
       unfold render, str_quote; cbn [lhs rhs operator];
       now rewrite !append_assoc).
Qed.

Lemma like_metachars_escaped_once_witness :
  like_body CONTAINS false "val_c" = "val" ++ String "\" (String "_" "c")
  /\ like_tokens (like_body CONTAINS false "val_c")
     = [LitChar "v"; LitChar "a"; LitChar "l"; LitChar "_"; LitChar "c"]
  /\ exists cmp,
       sub_predicate athena_backend CONTAINS false "fieldA" "val_c" = Some cmp
       /\ render cmp = "LOWER(fieldA) LIKE '%val\_c%'" ++ " ESCAPE '\'".
Proof.
  destruct (like_metachars_escaped_once athena_backend CONTAINS false "fieldA" "val_c" eq_refl)
    as [Hat [Htok [cmp [Hsub [_ [_ Hrender]]]]]].
  split; [exact (proj1 (Hat "val" "_"%char "c" eq_refl eq_refl))|].
  split; [exact Htok|].
  exists cmp. split; [exact Hsub|].
  rewrite Hrender. inversion Hsub. reflexivity.
Defined.

(** *** The identifier resolver *)

Lemma split_path_cons c rest :
  split_path (String c rest)
  = if Ascii.eqb c "\" then
      match rest with
      | String c' rest' =>
          if Ascii.eqb c' "." then push "." (split_path rest')
          else push "\" (split_path rest)
      | EmptyString => push "\" (split_path rest)
      end
    else if Ascii.eqb c "." then EmptyString :: split_path rest
    else push c (split_path rest).
Proof. reflexivity. Qed.

Lemma split_path_escaped_dot rest :
  split_path (String "\" (String "." rest)) = push "." (split_path rest).
Proof. reflexivity. Qed.

Lemma split_path_segment seg :
  str_mem "\" seg = false ->
  split_path (escape_dots seg) = [seg]
  /\ forall rest, split_path (escape_dots seg ++ "." ++ rest) = seg :: split_path rest.
Proof.
  induction seg as [|c s IH]; intros H.
  - split; reflexivity.
  - simpl in H. apply orb_false_iff in H; destruct H as [Hc Hs].
    destruct (IH Hs) as [IH1 IH2].
    simpl escape_dots. destruct (Ascii.eqb c ".") eqn:Ed.
    + apply Ascii.eqb_eq in Ed; subst c. split.
      * now rewrite split_path_escaped_dot, IH1.
      * intros rest.
        change (String "\" (String "." (escape_dots s)) ++ "." ++ rest)
          with (String "\" (String "." (escape_dots s ++ "." ++ rest))).
        now rewrite split_path_escaped_dot, IH2.
    + split.
      * rewrite split_path_cons, Hc, Ed, IH1. reflexivity.
      * intros rest.
        change (String c (escape_dots s) ++ "." ++ rest)
          with (String c (escape_dots s ++ "." ++ rest)).
        rewrite split_path_cons, Hc, Ed, IH2. reflexivity.
Qed.

(** Splitting a written field name gives back its segments. *)
Lemma split_path_field_name_of seg segments :
  Forall (fun s => str_mem "\" s = false) (seg :: segments) ->
  split_path (field_name_of (seg :: segments)) = seg :: segments.
Proof.
  revert seg; induction segments as [|seg' segments IH]; intros seg H.
  - inversion H; subst. now apply split_path_segment.
  - inversion H as [|? ? Hseg Hrest]; subst.
    change (field_name_of (seg :: seg' :: segments))
      with (escape_dots seg ++ "." ++ field_name_of (seg' :: segments)).
    rewrite (proj2 (split_path_segment seg Hseg)). now rewrite (IH seg' Hrest).
Qed.

Lemma existsb_eqb_In s l : existsb (String.eqb s) l = true <-> In s l.
Proof.
  rewrite existsb_exists. split.
  - intros [x [Hin Heq]]. apply String.eqb_eq in Heq. now subst.
  - intros Hin. exists s. split; [exact Hin | apply String.eqb_refl].
Qed.




(** C6: a field name is split on its unescaped dots; when its first
    segment is a container of [element_at_fields] it resolves to
    [element_at(<container>, '<path>')] with the segments after the
    container joined by dots, otherwise to its segments joined by dots,
    each quoted unless it is a bare identifier.  A name written from
    segments, with the dots inside a segment escaped, splits into exactly
    those segments, and a segment with a dot in it is always quoted.  The
    two names of the tests resolve as the tests expect. *)
Theorem identifier_resolver_paths :
  forall (element_at_fields : list string),
    (forall field_name container path,
        split_path field_name = container :: path ->
        In container element_at_fields ->
        escape_and_quote_field element_at_fields field_name
        = "element_at(" ++ container ++ ", '" ++ String.concat "." path ++ "')")
    /\ (forall field_name container path,
           split_path field_name = container :: path ->
           ~ In container element_at_fields ->
           escape_and_quote_field element_at_fields field_name
           = String.concat "." (map quote_if_needed (container :: path)))
    /\ (forall container path,
           Forall (fun seg => str_mem "\" seg = false) (container :: path) ->
           split_path (field_name_of (container :: path)) = container :: path)
    /\ (forall seg, str_mem "." seg = true ->
          quote_if_needed seg = String dquote (seg ++ String dquote ""))
    /\ escape_and_quote_field ["unmapped"] "unmapped.serviceEventDetails.account_id"
       = "element_at(unmapped, 'serviceEventDetails.account_id')"
    /\ escape_and_quote_field ["unmapped"] "actor.user\.uid"
       = "actor." ++ String dquote ("user.uid" ++ String dquote "").
Proof.
  intros el.
  split; [|split; [|split; [|split; [|split; reflexivity]]]].
  - intros field_name container path Hsplit Hin.
    unfold escape_and_quote_field. rewrite Hsplit.
    apply existsb_eqb_In in Hin. now rewrite Hin.
  - intros field_name container path Hsplit Hnotin.
    unfold escape_and_quote_field. rewrite Hsplit.
    destruct (existsb (String.eqb container) el) eqn:E; [|reflexivity].
    apply existsb_eqb_In in E. contradiction.
  - intros container path Hsegs. now apply split_path_field_name_of.
  - intros seg Hdot. unfold quote_if_needed.
    assert (Hb : bare_identifier seg = false).
    { destruct seg as [|c seg]; [reflexivity|].
      unfold bare_identifier.
      destruct (all_word_chars (String c seg)) eqn:Hw; [|reflexivity].
      exfalso. clear - Hdot Hw.
      induction (String c seg) as [|a s IH]; [discriminate|].
      simpl in Hdot, Hw. apply andb_prop in Hw; destruct Hw as [Ha Hs].
      destruct (Ascii.eqb a ".") eqn:E.
      - apply Ascii.eqb_eq in E; subst a. discriminate Ha.
      - exact (IH Hdot Hs). }
    now rewrite Hb.
Qed.

Lemma identifier_resolver_paths_witness :
  split_path (field_name_of ["unmapped"; "serviceEventDetails"; "account_id"])
  = ["unmapped"; "serviceEventDetails"; "account_id"]
  /\ split_path (field_name_of ["actor"; "user.uid"]) = ["actor"; "user.uid"]
  /\ escape_and_quote_field athena_backend "unmapped.serviceEventDetails.account_id"
     = "element_at(unmapped, 'serviceEventDetails.account_id')"
  /\ escape_and_quote_field athena_backend "actor.user\.uid"
     = String.concat "." (map quote_if_needed ["actor"; "user.uid"])
  /\ quote_if_needed "user.uid" = String dquote ("user.uid" ++ String dquote "").
Proof.
  destruct (identifier_resolver_paths athena_backend)
    as [Hunmapped [Hmapped [Hsplit [Hquote _]]]].
  split; [apply Hsplit; repeat constructor|].
  split; [apply Hsplit; repeat constructor|].
  split.
  { apply (Hunmapped "unmapped.serviceEventDetails.account_id" "unmapped"
             ["serviceEventDetails"; "account_id"]); [reflexivity | simpl; tauto]. }
  split.
  { apply (Hmapped "actor.user\.uid" "actor" ["user.uid"]);
      [reflexivity | simpl; intros [H|[]]; discriminate H]. }
  apply Hquote. reflexivity.
Defined.

(** *** The assembler and the case policy *)









